(** * SageMaker example notebooks: a shallow embedding of two notebooks

    The development covers the code cells of
    - [introduction_to_amazon_algorithms/jumpstart_text_classification/
       Amazon_JumpStart_Text_Classification.ipynb] (module [JumpStart]) and
    - [sagemaker-debugger/tensorflow_profiling/
       tf-resnet-profiling-multi-gpu-multi-node.ipynb] (module [Profiling]).

    Python values are modelled by the shapes the notebooks handle, local
    Python errors by an exception type, the notebook kernel's global
    namespace by a function from the notebook's names to optional values,
    and every call that leaves the notebook (SDK constructors and methods,
    attribute reads on SDK objects, file access, printing) by an event that
    an arbitrary handler answers with a value or an exception.  The first
    part of the file holds the definitions, the second part the
    properties. *)

From stdpp Require Import base strings list gmap option.

Local Open Scope string_scope.
Local Open Scope Z_scope.
Local Open Scope list_scope.

(** ** Python values and exceptions *)

(** The scalar values that occur in JSON objects and in the notebooks'
    dictionary literals ([None], [True]/[False], integers, strings). *)
Inductive scalar : Type :=
| SNone
| SBool (b : bool)
| SInt (z : Z)
| SStr (s : string).

(** Exceptions.  [KeyError], [TypeError] and [NameError] are the ones the
    Python runtime raises for the notebooks' own expressions; [Raised] stands
    for whatever an external call raises (class name and message). *)
Inductive exn : Type :=
| KeyError (key : string)
| TypeError (msg : string)
| NameError (name : string)
| Raised (cls msg : string).

(** The error monad of local Python evaluation. *)
#[global] Instance exn_ret : MRet (sum exn) := fun _ x => inr x.
#[global] Instance exn_bind : MBind (sum exn) := fun _ _ f m =>
  match m with
  | inl e => inl e
  | inr x => f x
  end.

(** Python [a == b] on scalars; [bool] is a subclass of [int], so
    [True == 1] and [False == 0] hold. *)
Definition py_eq (a b : scalar) : bool :=
  match a, b with
  | SNone, SNone => true
  | SBool x, SBool y => Bool.eqb x y
  | SInt x, SInt y => Z.eqb x y
  | SBool x, SInt y => Z.eqb (Z.b2z x) y
  | SInt x, SBool y => Z.eqb x (Z.b2z y)
  | SStr x, SStr y => String.eqb x y
  | _, _ => false
  end.

(** Python [x in l] for a list [l]: some element compares equal to [x]. *)
Definition list_contains (l : list scalar) (x : scalar) : bool :=
  existsb (fun y => py_eq y x) l.

(** Python [d[k]] on a dictionary. *)
Definition getitem (d : gmap string scalar) (k : string) : exn + scalar :=
  match d !! k with
  | Some v => inr v
  | None => inl (KeyError k)
  end.

(** [s.startswith(p)]. *)
Fixpoint starts_with (p s : string) : bool :=
  match p with
  | EmptyString => true
  | String a p' =>
      match s with
      | EmptyString => false
      | String b s' => if Ascii.eqb a b then starts_with p' s' else false
      end
  end.

(** Python [needle in hay] on strings: [needle] occurs as a contiguous
    substring of [hay]. *)
Fixpoint contains (needle hay : string) : bool :=
  starts_with needle hay ||
  match hay with
  | EmptyString => false
  | String _ hay' => contains needle hay'
  end.

(** Python [needle in v] where [needle] is a string literal and [v] a scalar:
    defined on strings only, the other scalars are not iterable. *)
Definition str_in (needle : string) (v : scalar) : exn + bool :=
  match v with
  | SStr s => inr (contains needle s)
  | _ => inl (TypeError "argument is not iterable")
  end.

(** A models manifest as [json.load] returns it: a list of JSON objects
    with scalar fields. *)
Abbreviation manifest := (list (gmap string scalar)).

(** ** The local computation of the model-selection cell *)

(** [[model["model_id"] for model in model_list if "-tc-" in model["model_id"]]] *)
Fixpoint tc_filter (model_list : manifest) : exn + list scalar :=
  match model_list with
  | [] => inr []
  | model :: rest =>
      v ← getitem model "model_id";
      b ← str_in "-tc-" v;
      if b : bool then
        x ← getitem model "model_id";
        xs ← tc_filter rest;
        mret (x :: xs)
      else tc_filter rest
  end.

(** [[tc_models.append(model) for model in tc_models_all_versions
      if model not in tc_models]], as a loop that carries the list it
    appends to. *)
Fixpoint dedup_loop (tc_models_all_versions tc_models : list scalar)
  : list scalar :=
  match tc_models_all_versions with
  | [] => tc_models
  | model :: rest =>
      if negb (list_contains tc_models model)
      then dedup_loop rest (tc_models ++ [model])
      else dedup_loop rest tc_models
  end.

(** The default model id of the notebook. *)
Definition default_model_id : string :=
  "tensorflow-tc-bert-en-uncased-L-12-H-768-A-12-2".

#[global] Instance scalar_eq_dec : EqDecision scalar.
Proof. solve_decision. Defined.

(** A dictionary [m] whose ["model_id"] field is the string [id]. *)
Definition has_model_id (m : gmap string scalar) (id : string) : Prop :=
  m !! "model_id" = Some (SStr id).

(** What the specification says of the deduplicated list: every element
    once, in the order of the first occurrences. *)
Fixpoint first_occurrences (l : list scalar) : list scalar :=
  match l with
  | [] => []
  | x :: l' => x :: filter (fun y => y <> x) (first_occurrences l')
  end.


(** No two elements of the list are equal in the sense of Python's [==]. *)
Fixpoint py_distinct (l : list scalar) : bool :=
  match l with
  | [] => true
  | x :: l' => negb (list_contains l' x) && py_distinct l'
  end.

(** ** The notebook kernel

    A cell is a program over three kinds of steps: an external call, answered
    by the outside world with a value or an exception; a read of a global
    name; and a binding of a global name.  The continuation of a call receives
    the exception as well as the value, so that a program of this type could
    catch an error, retry or substitute a result: that the notebooks do none
    of these is proved about their cells, not built into the type. *)

(** References to objects that live in external libraries. *)
Inductive pyobj : Type := Obj (id : nat).

(** How a global name is spelled in the source (for [NameError]). *)
Class Spelling (name : Type) : Type := spelling : name -> string.

Section Kernel.
(** The calls a notebook issues, the type of each call's value, the
    notebook's global names and the type of the values each name holds. *)
Context {call : Type} {result : call -> Type}.
Context {name : Type} {ty : name -> Type}.
Context {name_dec : EqDecision name} {name_spelling : Spelling name}.

Inductive prog (A : Type) : Type :=
| Ret (a : A)
| Vis (c : call) (k : exn + result c -> prog A)
| Rd (x : name) (k : option (ty x) -> prog A)
| Wr (x : name) (v : ty x) (k : prog A).

Arguments Ret {A} a.
Arguments Vis {A} c k.
Arguments Rd {A} x k.
Arguments Wr {A} x v k.

Fixpoint prog_bind {A B} (p : prog A) (f : A -> prog B) : prog B :=
  match p with
  | Ret a => f a
  | Vis c k => Vis c (fun r => prog_bind (k r) f)
  | Rd x k => Rd x (fun o => prog_bind (k o) f)
  | Wr x v k => Wr x v (prog_bind k f)
  end.

(** Notebook code: a program that ends with a value or an exception. *)
Definition nb (A : Type) : Type := prog (exn + A).

Definition nb_ret {A} (a : A) : nb A := Ret (inr a).

(** Sequencing: an exception of the first part skips the second. *)
Definition nb_bind {A B} (f : A -> nb B) (m : nb A) : nb B :=
  prog_bind m (fun r => match r with
                        | inl e => Ret (inl e)
                        | inr a => f a
                        end).

(** The outcome of a local evaluation, as notebook code. *)
Definition lift {A} (r : exn + A) : nb A := Ret r.

(** An external call; its exception, if any, is the outcome. *)
Definition invoke (c : call) : nb (result c) := Vis c Ret.

(** Runs [m] and hands its outcome over as a value (the [with] statement
    needs it to run its exit action when the body raised). *)
Definition attempt {A} (m : nb A) : nb (exn + A) :=
  prog_bind m (fun r => Ret (inr r)).

(** Reading a global name; an unbound name raises [NameError]. *)
Definition load (x : name) : nb (ty x) :=
  Rd x (fun o => match o with
                 | Some v => Ret (inr v)
                 | None => Ret (inl (NameError (spelling x)))
                 end).

(** [x = v] *)
Definition assign (x : name) (v : ty x) : nb unit :=
  Wr x v (Ret (inr tt)).

(** [for x in xs: body] *)
Fixpoint for_each {T} (xs : list T) (body : T -> nb unit) : nb unit :=
  match xs with
  | [] => nb_ret tt
  | x :: xs' => nb_bind (fun _ => for_each xs' body) (body x)
  end.

(** *** Execution *)

(** The global namespace: what each name is bound to, if anything. *)
Definition ns : Type := forall x : name, option (ty x).

(** The namespace of a fresh kernel. *)
Definition fresh : ns := fun _ => None.

Definition bind_name (x : name) (v : ty x) (s : ns) : ns :=
  fun y => match name_dec x y with
           | left E => Some (eq_rect x ty v y E)
           | right _ => s y
           end.

(** What an execution leaves in its log: the names it bound, each with
    the value bound, and the calls it issued, each with its answer. *)
Inductive entry : Type :=
| LStore (x : name) (v : ty x)
| LCall (c : call) (r : exn + result c).

Section Run.
Context {W : Type}.

(** The outside world: any function from a call and a world state to an
    answer and a new world state. *)
Definition handler : Type := forall c : call, W -> (exn + result c) * W.

Record final (A : Type) : Type := Final {
  out_res : A;
  out_ns : ns;
  out_world : W;
  out_log : list entry
}.
Arguments Final {A} _ _ _ _.
Arguments out_res {A} _.
Arguments out_ns {A} _.
Arguments out_world {A} _.
Arguments out_log {A} _.

Definition logged {A} (e : entry) (f : final A) : final A :=
  let 'Final a s w l := f in Final a s w (e :: l).

Fixpoint run {A} (h : handler) (p : prog A) (s : ns) (w : W) : final A :=
  match p with
  | Ret a => Final a s w []
  | Vis c k =>
      let '(r, w') := h c w in
      logged (LCall c r) (run h (k r) s w')
  | Rd x k => run h (k (s x)) s w
  | Wr x v k => logged (LStore x v) (run h k (bind_name x v s) w)
  end.

(** Running the cells of a notebook from top to bottom; the first cell
    that raises ends the execution (the behaviour of Run All). *)
Fixpoint run_all (h : handler) (cells : list (nb unit)) (s : ns) (w : W)
  : final (exn + unit) :=
  match cells with
  | [] => Final (inr tt) s w []
  | c :: cs =>
      let 'Final r s' w' l := run h c s w in
      match r with
      | inl e => Final (inl e) s' w' l
      | inr _ =>
          let 'Final r' s'' w'' l' := run_all h cs s' w' in
          Final r' s'' w'' (l ++ l')
      end
  end.
End Run.

Arguments handler : clear implicits.
Arguments final : clear implicits.
Arguments out_res {W A} _.
Arguments out_ns {W A} _.
Arguments out_world {W A} _.
Arguments out_log {W A} _.

(** *** Observations on a log *)

(** The exception of a failed call. *)
Definition failure (e : entry) : option exn :=
  match e with
  | LCall _ (inl x) => Some x
  | _ => None
  end.

(** The calls of a log, without their answers. *)
Definition calls (l : list entry) : list call :=
  omap (fun e => match e with LCall c _ => Some c | LStore _ _ => None end) l.

(** The exceptions of the failed calls of a log, in order. *)
Definition failures (l : list entry) : list exn := omap failure l.

(** [each_suffix R l]: every entry [e] of [l] is related by [R] to the
    entries that follow it. *)
Fixpoint each_suffix (R : entry -> list entry -> Prop) (l : list entry)
  : Prop :=
  match l with
  | [] => True
  | e :: l' => R e l' /\ each_suffix R l'
  end.

(** The names a log binds, in order. *)
Definition stores (l : list entry) : list name :=
  omap (fun e => match e with LStore x _ => Some x | LCall _ _ => None end) l.

(** The values a log binds to the name [x], in order. *)
Definition stored (x : name) (e : entry) : option (ty x) :=
  match e with
  | LStore y v =>
      match name_dec y x with
      | left E => Some (eq_rect y ty v x E)
      | right _ => None
      end
  | LCall _ _ => None
  end.

Definition bound (x : name) (l : list entry) : list (ty x) :=
  omap (stored x) l.

(** After a failed call nothing follows in a log but, at most, one call
    that [cleanup] accepts. *)
Definition stops_after_failure (cleanup : call -> bool) (l : list entry)
  : Prop :=
  forall l1 e l2, l = l1 ++ e :: l2 -> is_Some (failure e) ->
    l2 = [] \/ exists c r, cleanup c = true /\ l2 = [LCall c r].

(** The exception of the last failed call, if a call failed, is the
    outcome of the execution. *)
Definition raises_last_failure {W A} (f : final W (exn + A)) : Prop :=
  forall x, list.last (failures (out_log f)) = Some x -> out_res f = inl x.

(** An answer without its value. *)
Definition outcome_of {A} (r : exn + A) : exn + unit :=
  match r with
  | inl e => inl e
  | inr _ => inr tt
  end.

(** [relays p c s]: run from the namespace [s], the code [p] issues the
    call [c] and nothing else, and its outcome is the answer to [c]. *)
Definition relays (p : nb unit) (c : call) (s : ns) : Prop :=
  forall (W : Type) (h : handler W) (w : W),
    calls (out_log (run h p s w)) = [c] /\
    out_res (run h p s w) = outcome_of (h c w).1.

(** [binds_answer p c x s]: run from [s], the code [p] binds [x] to the
    value that the call [c] returns, as it is returned. *)
Definition binds_answer (p : nb unit) (c : call) (x : name)
    (same : result c = ty x) (s : ns) : Prop :=
  forall (W : Type) (h : handler W) (w : W) (v : result c),
    (h c w).1 = inr v ->
    bound x (out_log (run h p s w)) = [eq_rect _ (fun T => T) v _ same] /\
    out_ns (run h p s w) x = Some (eq_rect _ (fun T => T) v _ same).

(** *** Shapes of programs *)

Section Shapes.
(** Calls that release a resource when a block is left. *)
Context (cleanup : call -> bool).

(** [raises e p]: [p] ends with the exception [e], at once or after one
    cleanup call; if the cleanup call raises, its exception is the
    outcome. *)
Inductive raises {A} (e : exn) : nb A -> Prop :=
| raises_now : raises e (Ret (inl e))
| raises_after_cleanup c k :
    cleanup c = true ->
    (forall e', k (inl e') = Ret (inl e')) ->
    (forall v, k (inr v) = Ret (inl e)) ->
    raises e (Vis c k).

(** [strict p]: whenever a call of [p] raises, [p] raises the same
    exception: no handler, no retry, no substituted value. *)
Inductive strict {A} : nb A -> Prop :=
| strict_ret r : strict (Ret r)
| strict_call c k :
    (forall e, raises e (k (inl e))) ->
    (forall v, strict (k (inr v))) ->
    strict (Vis c k)
| strict_read x k : (forall o, strict (k o)) -> strict (Rd x k)
| strict_write x v k : strict k -> strict (Wr x v k).
End Shapes.
End Kernel.

Arguments prog : clear implicits.
Arguments nb : clear implicits.
Arguments ns : clear implicits.
Arguments entry : clear implicits.
Arguments handler : clear implicits.
Arguments final : clear implicits.
Arguments Ret {call result name ty A} a.
Arguments Vis {call result name ty A} c k.
Arguments Rd {call result name ty A} x k.
Arguments Wr {call result name ty A} x v k.
Arguments LStore {call result name ty} x v.
Arguments LCall {call result name ty} c r.
Arguments out_res {call result name ty W A} _.
Arguments out_ns {call result name ty W A} _.
Arguments out_world {call result name ty W A} _.
Arguments out_log {call result name ty W A} _.

#[global] Instance nb_mret {call result name ty} : MRet (nb call result name ty) :=
  fun _ a => nb_ret a.
#[global] Instance nb_mbind {call result name ty} : MBind (nb call result name ty) :=
  fun _ _ f m => nb_bind f m.

(** [returned l c v]: in the log [l] the call [c] returned the value [v]. *)
Definition returned {call} {result : call -> Type} {name} {ty : name -> Type}
    (l : list (entry call result name ty)) (c : call) (v : result c) : Prop :=
  LCall c (inr v) ∈ l.

(** [all_bound s xs]: the namespace [s] binds every name of [xs]. *)
Fixpoint all_bound {name} {ty : name -> Type} (s : ns name ty)
    (xs : list name) : bool :=
  match xs with
  | [] => true
  | x :: xs' =>
      match s x with
      | Some _ => all_bound s xs'
      | None => false
      end
  end.

(** ** The JumpStart text-classification notebook

    Each code cell is one definition, its statements in source order.  An
    [import] statement binds a module name and issues no call; the modules
    show in the names of the calls. *)

Module JumpStart.

(** The global names of the notebook. *)
Inductive name : Type :=
| aws_role | aws_region | sess | model_id | json_file | model_list
| tc_models_all_versions | tc_models | dropdown
| training_data_bucket | training_data_prefix | training_dataset_s3_path
| estimator | predictor | text1 | text2 | text | query_response.

#[global] Instance name_eq_dec : EqDecision name.
Proof. solve_decision. Defined.

#[global] Instance name_spelling : Spelling name := fun x =>
  match x with
  | aws_role => "aws_role" | aws_region => "aws_region" | sess => "sess"
  | model_id => "model_id" | json_file => "json_file"
  | model_list => "model_list"
  | tc_models_all_versions => "tc_models_all_versions"
  | tc_models => "tc_models" | dropdown => "dropdown"
  | training_data_bucket => "training_data_bucket"
  | training_data_prefix => "training_data_prefix"
  | training_dataset_s3_path => "training_dataset_s3_path"
  | estimator => "estimator" | predictor => "predictor"
  | text1 => "text1" | text2 => "text2" | text => "text"
  | query_response => "query_response"
  end.

(** The values each name holds. *)
Definition ty (x : name) : Type :=
  match x with
  | aws_role | aws_region | training_data_bucket | training_data_prefix
  | training_dataset_s3_path | text1 | text2 | text => string
  | sess | json_file | dropdown | estimator | predictor
  | query_response => pyobj
  | model_id => scalar
  | model_list => manifest
  | tc_models_all_versions | tc_models => list scalar
  end.

(** The calls that leave the notebook. *)
Inductive call : Type :=
| Shell (cmd : string)
    (* [!cmd] *)
| GetExecutionRole
    (* [get_execution_role()] *)
| Boto3Session
    (* [boto3.Session()] *)
| RegionName (session : pyobj)
    (* [session.region_name] *)
| SagemakerSession
    (* [sagemaker.Session()] *)
| Boto3Client (service : string)
    (* [boto3.client(service)] *)
| DownloadFile (client : pyobj) (bucket key filename : string)
    (* [client.download_file(bucket, key, filename)] *)
| Open (file mode : string)
    (* [open(file, mode)] *)
| JsonLoad (fp : pyobj)
    (* [json.load(fp)] *)
| Close (fp : pyobj)
    (* [fp.__exit__(...)] at the end of a [with] statement *)
| Dropdown (value : scalar) (options : list scalar) (description : string)
           (style layout : list (string * scalar))
    (* [Dropdown(value=, options=, description=, style=, layout=)] *)
| Markdown (data : string)
    (* [IPython.display.Markdown(data)] *)
| Display (obj : pyobj)
    (* [display(obj)] *)
| DropdownValue (widget : pyobj)
    (* [widget.value] *)
| GetJumpstartContentBucket
    (* [get_jumpstart_content_bucket()] *)
| JumpStartEstimator (model : scalar) (hyperparameters : list (string * scalar))
    (* [JumpStartEstimator(model_id=, hyperparameters=)] *)
| Fit (est : pyobj) (inputs : list (string * string)) (logs : bool)
    (* [est.fit(inputs, logs=)] *)
| Deploy (est : pyobj)
    (* [est.deploy()] *)
| Predict (pred : pyobj) (data : string)
    (* [pred.predict(data)] *)
| Print (obj : pyobj)
    (* [print(obj)] *)
| DeletePredictor (pred : pyobj)
    (* [pred.delete_predictor()] *).

(** The type of the value each call returns. *)
Definition result (c : call) : Type :=
  match c with
  | Shell _ | DownloadFile _ _ _ _ | Close _ | Display _ | Fit _ _ _
  | Print _ | DeletePredictor _ => unit
  | GetExecutionRole | RegionName _ | GetJumpstartContentBucket => string
  | Boto3Session | SagemakerSession | Boto3Client _ | Open _ _
  | Dropdown _ _ _ _ _ | Markdown _ | JumpStartEstimator _ _ | Deploy _
  | Predict _ _ => pyobj
  | JsonLoad _ => manifest
  | DropdownValue _ => scalar
  end.

Abbreviation cell := (nb call result name ty unit).
Abbreviation invoke := (@invoke call result name ty).
Abbreviation load := (@load call result name ty _).
Abbreviation assign := (@assign call result name ty).

(** [with open(file, mode) as json_file: body]: the file is closed when
    the body is left, also when it is left by an exception, which is then
    raised again. *)
Definition with_open (file mode : string) (body : cell) : cell :=
  f ← invoke (Open file mode);
  assign json_file f;;
  r ← attempt body;
  invoke (Close f);;
  lift r.

(** [!pip install sagemaker ipywidgets --upgrade --quiet] *)
Definition cell_install : cell :=
  invoke (Shell "pip install sagemaker ipywidgets --upgrade --quiet").

Definition cell_setup : cell :=
  role ← invoke GetExecutionRole;
  assign aws_role role;;
  session ← invoke Boto3Session;
  region ← invoke (RegionName session);
  assign aws_region region;;
  sm ← invoke SagemakerSession;
  assign sess sm.

Definition cell_default_model : cell :=
  assign model_id (SStr default_model_id).

Definition cell_select_model : cell :=
  client ← invoke (Boto3Client "s3");
  region ← load aws_region;
  invoke (DownloadFile client ("jumpstart-cache-prod-" +:+ region)
            "models_manifest.json" "models_manifest.json");;
  with_open "models_manifest.json" "rb" (
    fp ← load json_file;
    ml ← invoke (JsonLoad fp);
    assign model_list ml);;
  ml ← load model_list;
  all_versions ← lift (tc_filter ml);
  assign tc_models_all_versions all_versions;;
  assign tc_models [];;
  all_versions ← load tc_models_all_versions;
  acc ← load tc_models;
  assign tc_models (dedup_loop all_versions acc);;
  value ← load model_id;
  options ← load tc_models;
  widget ← invoke (Dropdown value options
                     "JumpStart Text Classification Models:"
                     [("description_width", SStr "initial")]
                     [("width", SStr "max-content")]);
  assign dropdown widget;;
  md ← invoke (Markdown
         "## Select a JumpStart pre-trained model from the dropdown below");
  invoke (Display md);;
  widget ← load dropdown;
  invoke (Display widget).

Definition cell_read_selection : cell :=
  widget ← load dropdown;
  v ← invoke (DropdownValue widget);
  assign model_id v.

Definition cell_training_data : cell :=
  bucket ← invoke GetJumpstartContentBucket;
  assign training_data_bucket bucket;;
  assign training_data_prefix "training-datasets/SST/";;
  bucket ← load training_data_bucket;
  prefix ← load training_data_prefix;
  assign training_dataset_s3_path ("s3://" +:+ bucket +:+ "/" +:+ prefix).

Definition cell_estimator : cell :=
  model ← load model_id;
  est ← invoke (JumpStartEstimator model
                  [("epochs", SStr "1"); ("batch_size", SStr "64")]);
  assign estimator est.

Definition cell_fit : cell :=
  est ← load estimator;
  path ← load training_dataset_s3_path;
  invoke (Fit est [("training", path)] true).

Definition cell_deploy : cell :=
  est ← load estimator;
  pred ← invoke (Deploy est);
  assign predictor pred.

Definition sentence1 : string :=
  "astonishing ... ( frames ) profound ethical and philosophical questions in the form of dazzling pop entertainment".
Definition sentence2 : string :=
  "simply stupid , irrelevant and deeply , truly , bottomlessly cynical ".

Definition cell_texts : cell :=
  assign text1 sentence1;;
  assign text2 sentence2.

Definition cell_predict : cell :=
  t1 ← load text1;
  t2 ← load text2;
  for_each [t1; t2] (fun t =>
    assign text t;;
    pred ← load predictor;
    data ← load text;
    response ← invoke (Predict pred data);
    assign query_response response;;
    response ← load query_response;
    invoke (Print response)).

Definition cell_cleanup : cell :=
  pred ← load predictor;
  invoke (DeletePredictor pred).

(** The code cells, from top to bottom. *)
Definition cells : list cell :=
  [ cell_install; cell_setup; cell_default_model; cell_select_model;
    cell_read_selection; cell_training_data; cell_estimator; cell_fit;
    cell_deploy; cell_texts; cell_predict; cell_cleanup ].

(** *** Observations *)

Abbreviation entry := (entry call result name ty).

(** How the source writes the callee of each call. *)
Definition callee (c : call) : string :=
  match c with
  | Shell _ => "!"
  | GetExecutionRole => "get_execution_role"
  | Boto3Session => "boto3.Session"
  | RegionName _ => ".region_name"
  | SagemakerSession => "sagemaker.Session"
  | Boto3Client _ => "boto3.client"
  | DownloadFile _ _ _ _ => ".download_file"
  | Open _ _ => "open"
  | JsonLoad _ => "json.load"
  | Close _ => ".__exit__"
  | Dropdown _ _ _ _ _ => "Dropdown"
  | Markdown _ => "IPython.display.Markdown"
  | Display _ => "display"
  | DropdownValue _ => ".value"
  | GetJumpstartContentBucket => "get_jumpstart_content_bucket"
  | JumpStartEstimator _ _ => "JumpStartEstimator"
  | Fit _ _ _ => ".fit"
  | Deploy _ => ".deploy"
  | Predict _ _ => ".predict"
  | Print _ => "print"
  | DeletePredictor _ => ".delete_predictor"
  end.

(** The callees of each cell, in the order of [cells]. *)
Definition scripts : list (list string) :=
  [ ["!"];
    ["get_execution_role"; "boto3.Session"; ".region_name";
     "sagemaker.Session"];
    [];
    ["boto3.client"; ".download_file"; "open"; "json.load"; ".__exit__";
     "Dropdown"; "IPython.display.Markdown"; "display"; "display"];
    [".value"];
    ["get_jumpstart_content_bucket"];
    ["JumpStartEstimator"];
    [".fit"];
    [".deploy"];
    [];
    [".predict"; "print"; ".predict"; "print"];
    [".delete_predictor"] ].

(** The one cleanup call of the notebook: leaving the [with] block. *)
Definition is_close (c : call) : bool :=
  match c with Close _ => true | _ => false end.

(** The manifest that a successful [json.load] returned. *)
Definition json_loaded (e : entry) : option manifest :=
  match e with
  | LCall c r =>
      match c as c0 return exn + result c0 -> option manifest with
      | JsonLoad _ => fun r => match r with
                               | inr ml => Some ml
                               | inl _ => None
                               end
      | _ => fun _ => None
      end r
  | LStore _ _ => None
  end.

(** The manifest file was closed without an exception. *)
Definition closed (e : entry) : bool :=
  match e with
  | LCall (Close _) (inr _) => true
  | _ => false
  end.

(** The manifest that was read: loaded, and the file closed. *)
Definition manifest_read (l : list entry) : option manifest :=
  ml ← head (omap json_loaded l);
  if existsb closed l then Some ml else None.

(** The arguments [value] and [options] of a [Dropdown] construction. *)
Definition dropdown_args (c : call) : option (scalar * list scalar) :=
  match c with
  | Dropdown value options _ _ _ => Some (value, options)
  | _ => None
  end.

(** The operations on the hosted endpoint. *)
Inductive endpoint_op : Type :=
| OpDeploy
| OpPredict (data : string)
| OpDelete.

Definition endpoint_op_of (c : call) : option endpoint_op :=
  match c with
  | Deploy _ => Some OpDeploy
  | Predict _ data => Some (OpPredict data)
  | DeletePredictor _ => Some OpDelete
  | _ => None
  end.

Definition endpoint_ops (l : list entry) : list endpoint_op :=
  omap endpoint_op_of (calls l).

(** A [Dropdown] construction that raised. *)
Definition dropdown_failed (e : entry) : bool :=
  match e with
  | LCall (Dropdown _ _ _ _ _) (inl _) => true
  | _ => false
  end.

(** The predictor a successful [deploy] returned. *)
Definition deployed (e : entry) : option pyobj :=
  match e with
  | LCall c r =>
      match c as c0 return exn + result c0 -> option pyobj with
      | Deploy _ => fun r => match r with
                             | inr p => Some p
                             | inl _ => None
                             end
      | _ => fun _ => None
      end r
  | LStore _ _ => None
  end.

(** The deletion of the endpoint. *)
Definition deletes (e : entry) : bool :=
  match e with
  | LCall (DeletePredictor _) _ => true
  | _ => false
  end.

(** The predictor that a prediction or a deletion addresses. *)
Definition target (c : call) : option pyobj :=
  match c with
  | Predict p _ | DeletePredictor p => Some p
  | _ => None
  end.

(** The first claim of section 4 of the specification, for one cell: the
    cell issues one external call and its outcome is that call's. *)
Definition pass_through (c : cell) : Prop :=
  forall (W : Type) (h : handler call result W) (s : ns name ty) (w : W),
    let f := run h c s w in
    exists c0, calls (out_log f) = [c0] /\
               failures (out_log f) = match out_res f with
                                      | inl e => [e]
                                      | inr _ => []
                                      end.

(** The last claim of section 7 of the specification, for one execution:
    it ends with an exception exactly when one of its calls raised. *)
Definition fails_exactly_when_a_call_fails {W}
    (f : final call result name ty W (exn + unit)) : Prop :=
  (exists e, out_res f = inl e) <-> failures (out_log f) <> [].

(** The contract of [ipywidgets.Dropdown], which is not part of the
    repository: a value that is among the options is accepted. *)
Definition accepts_listed_values {W} (h : handler call result W) : Prop :=
  forall value options description style layout w,
    value ∈ options ->
    exists widget, (h (Dropdown value options description style layout) w).1
                   = inr widget.

(** *** A sample outside world *)

Definition demo_manifest : manifest :=
  [ {[ "model_id" := SStr "tensorflow-tc-bert-en-uncased-L-12-H-768-A-12-2";
       "version" := SStr "1.0.0" ]};
    {[ "model_id" := SStr "pytorch-ic-mobilenet-v2";
       "version" := SStr "1.0.0" ]};
    {[ "model_id" := SStr "tensorflow-tc-bert-en-uncased-L-12-H-768-A-12-2";
       "version" := SStr "2.0.0" ]};
    {[ "model_id" := SStr "huggingface-tc-distilbert-base-cased";
       "version" := SStr "1.0.0" ]} ].

Definition demo_ids : list string :=
  [ "tensorflow-tc-bert-en-uncased-L-12-H-768-A-12-2";
    "pytorch-ic-mobilenet-v2";
    "tensorflow-tc-bert-en-uncased-L-12-H-768-A-12-2";
    "huggingface-tc-distilbert-base-cased" ].

(** A manifest whose second entry has no ["model_id"] field. *)
Definition malformed_manifest : manifest :=
  [ {[ "model_id" := SStr "tensorflow-tc-bert-en-uncased-L-12-H-768-A-12-2";
       "version" := SStr "1.0.0" ]};
    {[ "id" := SStr "pytorch-ic-mobilenet-v2";
       "version" := SStr "1.0.0" ]} ].

(** A world in which no call raises: objects are numbered as they are
    created, [json.load] returns [ml], and the user keeps the default
    selection of the dropdown. *)
Definition demo_with (ml : manifest) : handler call result nat := fun c w =>
  match c as c0 return (exn + result c0) * nat with
  | Shell _ | DownloadFile _ _ _ _ | Close _ | Display _ | Fit _ _ _
  | Print _ | DeletePredictor _ => (inr tt, w)
  | GetExecutionRole => (inr "arn:aws:iam::111122223333:role/demo", w)
  | RegionName _ => (inr "us-west-2", w)
  | GetJumpstartContentBucket => (inr "jumpstart-cache-prod-us-west-2", w)
  | Boto3Session | SagemakerSession | Boto3Client _ | Open _ _
  | Dropdown _ _ _ _ _ | Markdown _ | JumpStartEstimator _ _ | Deploy _
  | Predict _ _ => (inr (Obj w), S w)
  | JsonLoad _ => (inr ml, w)
  | DropdownValue _ => (inr (SStr default_model_id), w)
  end.

Definition demo : handler call result nat := demo_with demo_manifest.

(** The same world, except that the training job is refused. *)
Definition quota_error : exn :=
  Raised "ClientError" "ResourceLimitExceeded".

Definition demo_refusing_fit : handler call result nat := fun c w =>
  match c as c0 return (exn + result c0) * nat with
  | Fit _ _ _ => (inl quota_error, w)
  | c0 => demo c0 w
  end.

(** The namespace in which the model-selection cell runs when the cells
    above it have run in the sample world. *)
Definition before_selection : ns name ty :=
  out_ns (run_all demo [cell_install; cell_setup; cell_default_model]
            fresh 0%nat).

(** The namespace after a complete execution in the sample world. *)
Definition after_all : ns name ty := out_ns (run_all demo cells fresh 0%nat).

(** *** Observations on the flow of values *)

(** The file object a successful [open] returned. *)
Definition opened (e : entry) : option pyobj :=
  match e with
  | LCall c r =>
      match c as c0 return exn + result c0 -> option pyobj with
      | Open _ _ => fun r => match r with
                             | inr f => Some f
                             | inl _ => None
                             end
      | _ => fun _ => None
      end r
  | LStore _ _ => None
  end.

(** The file object that a close addresses. *)
Definition close_of (c : call) : option pyobj :=
  match c with
  | Close f => Some f
  | _ => None
  end.

(** The file object that [json.load] reads. *)
Definition json_load_args (c : call) : option pyobj :=
  match c with
  | JsonLoad fp => Some fp
  | _ => None
  end.

(** The arguments of a [download_file] call. *)
Definition download_args (c : call)
  : option (pyobj * string * string * string) :=
  match c with
  | DownloadFile client bucket key filename =>
      Some (client, bucket, key, filename)
  | _ => None
  end.

(** The arguments of an [open] call. *)
Definition open_args (c : call) : option (string * string) :=
  match c with
  | Open file mode => Some (file, mode)
  | _ => None
  end.

(** The arguments of a [JumpStartEstimator] construction. *)
Definition estimator_args (c : call)
  : option (scalar * list (string * scalar)) :=
  match c with
  | JumpStartEstimator model hyperparameters => Some (model, hyperparameters)
  | _ => None
  end.

(** The estimator and the arguments of a [fit] call. *)
Definition fit_args (c : call)
  : option (pyobj * list (string * string) * bool) :=
  match c with
  | Fit est inputs logs => Some (est, inputs, logs)
  | _ => None
  end.

(** The estimator that a [deploy] call addresses. *)
Definition deploy_args (c : call) : option pyobj :=
  match c with
  | Deploy est => Some est
  | _ => None
  end.

(** The response a successful [predict] returned. *)
Definition predicted (e : entry) : option pyobj :=
  match e with
  | LCall c r =>
      match c as c0 return exn + result c0 -> option pyobj with
      | Predict _ _ => fun r => match r with
                                | inr v => Some v
                                | inl _ => None
                                end
      | _ => fun _ => None
      end r
  | LStore _ _ => None
  end.

(** A [predict] that raised. *)
Definition failed_predict (e : entry) : bool :=
  match e with
  | LCall (Predict _ _) (inl _) => true
  | _ => false
  end.

(** A [delete_predictor] that returned. *)
Definition deleted (e : entry) : bool :=
  match e with
  | LCall (DeletePredictor _) (inr _) => true
  | _ => false
  end.

(** The sample world with another selection made in the dropdown. *)
Definition demo_choosing (choice : scalar) : handler call result nat :=
  fun c w =>
  match c as c0 return (exn + result c0) * nat with
  | DropdownValue _ => (inr choice, w)
  | c0 => demo c0 w
  end.

(** The sample world, except that the endpoint refuses the second
    sentence. *)
Definition demo_refusing_second : handler call result nat := fun c w =>
  match c as c0 return (exn + result c0) * nat with
  | Predict p data =>
      if String.eqb data sentence2
      then (inl (Raised "ModelError" "InvokeEndpoint"), w)
      else demo (Predict p data) w
  | c0 => demo c0 w
  end.

(** Two namespaces that agree on every name but [aws_role] and [sess]. *)
Definition agree_but_setup (s s' : ns name ty) : Prop :=
  forall x, x <> aws_role -> x <> sess -> s x = s' x.

(** A kernel in which earlier work has left other values. *)
Definition stale : ns name ty :=
  bind_name model_id (SStr "pytorch-ic-mobilenet-v2")
    (bind_name predictor (Obj 99%nat)
       (bind_name aws_region "eu-west-1" fresh)).

(** The names that each cell reads before it has bound them itself, in
    the order of [cells]. *)
Definition reads : list (list name) :=
  [ [];
    [];
    [];
    [aws_region; model_id];
    [dropdown];
    [];
    [model_id];
    [estimator; training_dataset_s3_path];
    [estimator];
    [];
    [text1; text2; predictor];
    [predictor] ].

End JumpStart.

(** ** The multi-GPU multi-node profiling notebook

    Each code cell is one definition, its statements in source order;
    [import] statements are left out as in the first notebook. *)

Module Profiling.

(** The global names of the notebook.  No cell binds
    [system_metrics_reader]; the timeline-chart cell reads it. *)
Inductive name : Type :=
| hyperparameters | distributions | rules | profiler_config | estimator
| session | region | training_job_name | tj
| system_metrics_reader | view_timeline_charts | rule_output_path.

#[global] Instance name_eq_dec : EqDecision name.
Proof. solve_decision. Defined.

#[global] Instance name_spelling : Spelling name := fun x =>
  match x with
  | hyperparameters => "hyperparameters" | distributions => "distributions"
  | rules => "rules" | profiler_config => "profiler_config"
  | estimator => "estimator" | session => "session" | region => "region"
  | training_job_name => "training_job_name" | tj => "tj"
  | system_metrics_reader => "system_metrics_reader"
  | view_timeline_charts => "view_timeline_charts"
  | rule_output_path => "rule_output_path"
  end.

(** A dictionary literal with scalar values, in the order it is written. *)
Abbreviation dict := (list (string * scalar)).

(** The values each name holds. *)
Definition ty (x : name) : Type :=
  match x with
  | hyperparameters => dict
  | distributions => list (string * dict)
  | rules => list pyobj
  | profiler_config | estimator | session | tj | system_metrics_reader
  | view_timeline_charts => pyobj
  | region | training_job_name | rule_output_path => string
  end.

(** The keyword arguments of the [TensorFlow] estimator constructor. *)
Record tf_args : Type := TfArgs {
  tf_role : string;
  tf_instance_count : Z;
  tf_instance_type : string;
  tf_entry_point : string;
  tf_source_dir : string;
  tf_framework_version : string;
  tf_py_version : string;
  tf_profiler_config : pyobj;
  tf_hyperparameters : dict;
  tf_distribution : list (string * dict);
  tf_rules : list pyobj
}.

(** The calls that leave the notebook. *)
Inductive call : Type :=
| LossNotDecreasing
    (* [rule_configs.loss_not_decreasing()] *)
| LowGPUUtilization
    (* [rule_configs.LowGPUUtilization()] *)
| ProfilerReport
    (* [rule_configs.ProfilerReport()] *)
| RuleSagemaker (base_config : pyobj)
    (* [Rule.sagemaker(base_config)] *)
| ProfilerRuleSagemaker (base_config : pyobj)
    (* [ProfilerRule.sagemaker(base_config)] *)
| FrameworkProfile (kwargs : dict)
    (* [FrameworkProfile(k1=v1, ...)] with the keywords given *)
| ProfilerConfig (system_monitor_interval_millis : Z)
                 (framework_profile_params : pyobj)
    (* [ProfilerConfig(system_monitor_interval_millis=,
                       framework_profile_params=)] *)
| GetExecutionRole
    (* [sagemaker.get_execution_role()] *)
| TensorFlow (args : tf_args)
    (* [TensorFlow(role=, instance_count=, ...)] *)
| Fit (est : pyobj) (wait : bool)
    (* [est.fit(wait=)] *)
| Boto3Session
    (* [boto3.session.Session()] *)
| RegionName (sess : pyobj)
    (* [sess.region_name] *)
| LatestTrainingJob (est : pyobj)
    (* [est.latest_training_job] *)
| Name (job : pyobj)
    (* [job.name] *)
| JobName (job : pyobj)
    (* [job.job_name] *)
| OutputPath (est : pyobj)
    (* [est.output_path] *)
| Print (line : string)
    (* [print(line)] *)
| TrainingJob (job_name region_name : string)
    (* [TrainingJob(job_name, region_name)] *)
| WaitForSysProfilingData (job : pyobj)
    (* [job.wait_for_sys_profiling_data_to_be_available()] *)
| RefreshEventFileList (reader : pyobj)
    (* [reader.refresh_event_file_list()] *)
| TimelineCharts (reader : pyobj) (framework_metrics_reader : scalar)
                 (select_dimensions select_events : list string)
    (* [TimelineCharts(reader, framework_metrics_reader=,
                       select_dimensions=, select_events=)] *).

(** The type of the value each call returns. *)
Definition result (c : call) : Type :=
  match c with
  | LossNotDecreasing | LowGPUUtilization | ProfilerReport
  | RuleSagemaker _ | ProfilerRuleSagemaker _ | FrameworkProfile _
  | ProfilerConfig _ _ | TensorFlow _ | Boto3Session | LatestTrainingJob _
  | TrainingJob _ _ | TimelineCharts _ _ _ _ => pyobj
  | GetExecutionRole | RegionName _ | Name _ | JobName _
  | OutputPath _ => string
  | Fit _ _ | Print _ | WaitForSysProfilingData _
  | RefreshEventFileList _ => unit
  end.

Abbreviation cell := (nb call result name ty unit).
Abbreviation invoke := (@invoke call result name ty).
Abbreviation load := (@load call result name ty _).
Abbreviation assign := (@assign call result name ty).

Definition cell_hyperparameters : cell :=
  assign hyperparameters
    [("epoch", SInt 5); ("batch_size", SInt 64);
     ("data_augmentation", SBool true)].

Definition cell_distributions : cell :=
  assign distributions
    [("mpi",
      [("enabled", SBool true);
       ("processes_per_host", SInt 4);
       ("custom_mpi_options",
        SStr "-verbose -x HOROVOD_TIMELINE=./hvd_timeline.json -x NCCL_DEBUG=INFO -x OMPI_MCA_btl_vader_single_copy_mechanism=none")])].

Definition cell_rules : cell :=
  c1 ← invoke LossNotDecreasing;
  r1 ← invoke (RuleSagemaker c1);
  c2 ← invoke LowGPUUtilization;
  r2 ← invoke (ProfilerRuleSagemaker c2);
  c3 ← invoke ProfilerReport;
  r3 ← invoke (ProfilerRuleSagemaker c3);
  assign rules [r1; r2; r3].

Definition cell_profiler_config : cell :=
  fp ← invoke (FrameworkProfile [("num_steps", SInt 10)]);
  pc ← invoke (ProfilerConfig 500 fp);
  assign profiler_config pc.

Definition cell_estimator : cell :=
  role ← invoke GetExecutionRole;
  pc ← load profiler_config;
  hp ← load hyperparameters;
  dist ← load distributions;
  rs ← load rules;
  est ← invoke (TensorFlow {|
           tf_role := role;
           tf_instance_count := 2;
           tf_instance_type := "ml.p3.8xlarge";
           tf_entry_point := "tf-hvd-train.py";
           tf_source_dir := "entry_point";
           tf_framework_version := "2.3.1";
           tf_py_version := "py37";
           tf_profiler_config := pc;
           tf_hyperparameters := hp;
           tf_distribution := dist;
           tf_rules := rs |});
  assign estimator est.

Definition cell_fit : cell :=
  est ← load estimator;
  invoke (Fit est false).

Definition cell_job_name : cell :=
  sess ← invoke Boto3Session;
  assign session sess;;
  sess ← load session;
  reg ← invoke (RegionName sess);
  assign region reg;;
  est ← load estimator;
  job ← invoke (LatestTrainingJob est);
  jn ← invoke (Name job);
  assign training_job_name jn;;
  jn ← load training_job_name;
  invoke (Print ("Training jobname: " +:+ jn));;
  reg ← load region;
  invoke (Print ("Region: " +:+ reg)).

Definition cell_wait_profiling : cell :=
  jn ← load training_job_name;
  reg ← load region;
  job ← invoke (TrainingJob jn reg);
  assign tj job;;
  job ← load tj;
  invoke (WaitForSysProfilingData job).

Definition cell_timeline_charts : cell :=
  reader ← load system_metrics_reader;
  invoke (RefreshEventFileList reader);;
  reader ← load system_metrics_reader;
  charts ← invoke (TimelineCharts reader SNone ["CPU"; "GPU"] ["total"]);
  assign view_timeline_charts charts.

Definition cell_rule_output : cell :=
  est ← load estimator;
  out ← invoke (OutputPath est);
  est ← load estimator;
  job ← invoke (LatestTrainingJob est);
  jn ← invoke (JobName job);
  assign rule_output_path ((out +:+ jn) +:+ "/rule-output");;
  path ← load rule_output_path;
  invoke (Print ("You will find the profiler report in " +:+ path)).

(** The last code cell of the notebook is empty. *)
Definition cell_empty : cell := mret tt.

(** The code cells, from top to bottom. *)
Definition cells : list cell :=
  [ cell_hyperparameters; cell_distributions; cell_rules;
    cell_profiler_config; cell_estimator; cell_fit; cell_job_name;
    cell_wait_profiling; cell_timeline_charts; cell_rule_output;
    cell_empty ].

(** The cells below the cell that submits the training job. *)
Definition after_submission : list cell :=
  [ cell_job_name; cell_wait_profiling; cell_timeline_charts;
    cell_rule_output; cell_empty ].

(** *** Observations *)

Abbreviation entry := (entry call result name ty).

(** How the source writes the callee of each call. *)
Definition callee (c : call) : string :=
  match c with
  | LossNotDecreasing => "rule_configs.loss_not_decreasing"
  | LowGPUUtilization => "rule_configs.LowGPUUtilization"
  | ProfilerReport => "rule_configs.ProfilerReport"
  | RuleSagemaker _ => "Rule.sagemaker"
  | ProfilerRuleSagemaker _ => "ProfilerRule.sagemaker"
  | FrameworkProfile _ => "FrameworkProfile"
  | ProfilerConfig _ _ => "ProfilerConfig"
  | GetExecutionRole => "sagemaker.get_execution_role"
  | TensorFlow _ => "TensorFlow"
  | Fit _ _ => ".fit"
  | Boto3Session => "boto3.session.Session"
  | RegionName _ => ".region_name"
  | LatestTrainingJob _ => ".latest_training_job"
  | Name _ => ".name"
  | JobName _ => ".job_name"
  | OutputPath _ => ".output_path"
  | Print _ => "print"
  | TrainingJob _ _ => "TrainingJob"
  | WaitForSysProfilingData _ =>
      ".wait_for_sys_profiling_data_to_be_available"
  | RefreshEventFileList _ => ".refresh_event_file_list"
  | TimelineCharts _ _ _ _ => "TimelineCharts"
  end.

(** The callees of each cell, in the order of [cells]. *)
Definition scripts : list (list string) :=
  [ [];
    [];
    ["rule_configs.loss_not_decreasing"; "Rule.sagemaker";
     "rule_configs.LowGPUUtilization"; "ProfilerRule.sagemaker";
     "rule_configs.ProfilerReport"; "ProfilerRule.sagemaker"];
    ["FrameworkProfile"; "ProfilerConfig"];
    ["sagemaker.get_execution_role"; "TensorFlow"];
    [".fit"];
    ["boto3.session.Session"; ".region_name"; ".latest_training_job";
     ".name"; "print"; "print"];
    ["TrainingJob"; ".wait_for_sys_profiling_data_to_be_available"];
    [".refresh_event_file_list"; "TimelineCharts"];
    [".output_path"; ".latest_training_job"; ".job_name"; "print"];
    [] ].

(** The notebook has no cleanup call. *)
Definition no_cleanup (c : call) : bool := false.

(** The stages of the flow up to the submission of the training job. *)
Inductive stage : Type :=
| StHyperparameters
| StDistribution
| StRules
| StProfilerConfig
| StSubmit.

Definition milestone (e : entry) : option stage :=
  match e with
  | LStore hyperparameters _ => Some StHyperparameters
  | LStore distributions _ => Some StDistribution
  | LStore rules _ => Some StRules
  | LStore profiler_config _ => Some StProfilerConfig
  | LCall (Fit _ _) _ => Some StSubmit
  | _ => None
  end.

(** What a call does with respect to the training job. *)
Inductive interaction : Type :=
| Configure      (* builds a configuration object or the estimator *)
| Submit         (* submits the training job *)
| RegionQuery
| NameQuery
| ArtifactPathQuery
| ProfilingDataPoll
| Output.

Definition interaction_of (c : call) : interaction :=
  match c with
  | LossNotDecreasing | LowGPUUtilization | ProfilerReport
  | RuleSagemaker _ | ProfilerRuleSagemaker _ | FrameworkProfile _
  | ProfilerConfig _ _ | GetExecutionRole | TensorFlow _ => Configure
  | Fit _ _ => Submit
  | Boto3Session | RegionName _ => RegionQuery
  | LatestTrainingJob _ | Name _ | JobName _ => NameQuery
  | OutputPath _ => ArtifactPathQuery
  | TrainingJob _ _ | WaitForSysProfilingData _ | RefreshEventFileList _
  | TimelineCharts _ _ _ _ => ProfilingDataPoll
  | Print _ => Output
  end.

(** Queries, polls and printed output. *)
Definition passive (i : interaction) : bool :=
  match i with
  | Configure | Submit => false
  | _ => true
  end.

(** The [wait] argument of a submission. *)
Definition fit_wait (c : call) : option bool :=
  match c with
  | Fit _ wait => Some wait
  | _ => None
  end.

(** The arguments of an estimator construction. *)
Definition tf_call (c : call) : option tf_args :=
  match c with
  | TensorFlow args => Some args
  | _ => None
  end.

(** The keyword arguments of a [FrameworkProfile] construction. *)
Definition framework_profile_kwargs (c : call) : option dict :=
  match c with
  | FrameworkProfile kwargs => Some kwargs
  | _ => None
  end.

(** The arguments of a [ProfilerConfig] construction. *)
Definition profiler_config_args (c : call) : option (Z * pyobj) :=
  match c with
  | ProfilerConfig millis params => Some (millis, params)
  | _ => None
  end.

(** The object a successful [FrameworkProfile] construction returned. *)
Definition framework_profile_object (e : entry) : option pyobj :=
  match e with
  | LCall c r =>
      match c as c0 return exn + result c0 -> option pyobj with
      | FrameworkProfile _ => fun r => match r with
                                       | inr o => Some o
                                       | inl _ => None
                                       end
      | _ => fun _ => None
      end r
  | LStore _ _ => None
  end.

(** The string a successful read of [output_path] returned. *)
Definition output_path_answer (e : entry) : option string :=
  match e with
  | LCall c r =>
      match c as c0 return exn + result c0 -> option string with
      | OutputPath _ => fun r => match r with
                                 | inr p => Some p
                                 | inl _ => None
                                 end
      | _ => fun _ => None
      end r
  | LStore _ _ => None
  end.

(** The string a successful read of [job_name] returned. *)
Definition job_name_answer (e : entry) : option string :=
  match e with
  | LCall c r =>
      match c as c0 return exn + result c0 -> option string with
      | JobName _ => fun r => match r with
                              | inr n => Some n
                              | inl _ => None
                              end
      | _ => fun _ => None
      end r
  | LStore _ _ => None
  end.

(** The step range that the notebook's text announces ("from step 5 to
    step 15"), as keyword arguments of [FrameworkProfile]. *)
Definition documented_step_range : dict :=
  [("start_step", SInt 5); ("num_steps", SInt 10)].

(** *** A sample outside world *)

(** A world in which no call raises; objects are numbered as they are
    created. *)
Definition demo : handler call result nat := fun c w =>
  match c as c0 return (exn + result c0) * nat with
  | LossNotDecreasing | LowGPUUtilization | ProfilerReport
  | RuleSagemaker _ | ProfilerRuleSagemaker _ | FrameworkProfile _
  | ProfilerConfig _ _ | TensorFlow _ | Boto3Session | LatestTrainingJob _
  | TrainingJob _ _ | TimelineCharts _ _ _ _ => (inr (Obj w), S w)
  | GetExecutionRole => (inr "arn:aws:iam::111122223333:role/demo", w)
  | RegionName _ => (inr "us-west-2", w)
  | Name _ | JobName _ =>
      (inr "tensorflow-training-2021-01-01-00-00-00-000", w)
  | OutputPath _ => (inr "s3://sagemaker-us-west-2-111122223333/", w)
  | Fit _ _ | Print _ | WaitForSysProfilingData _
  | RefreshEventFileList _ => (inr tt, w)
  end.

(** The namespace after the cells up to the polling cell have run in the
    sample world. *)
Definition after_polling : ns name ty :=
  out_ns (run_all demo
            [ cell_hyperparameters; cell_distributions; cell_rules;
              cell_profiler_config; cell_estimator; cell_fit;
              cell_job_name; cell_wait_profiling ]
            fresh 0%nat).

(** *** Observations on the flow of values *)

(** The estimator that a [fit] call addresses. *)
Definition fit_target (c : call) : option pyobj :=
  match c with
  | Fit est _ => Some est
  | _ => None
  end.

(** The estimator whose [latest_training_job] is read. *)
Definition latest_job_target (c : call) : option pyobj :=
  match c with
  | LatestTrainingJob est => Some est
  | _ => None
  end.

(** The arguments of a [TrainingJob] construction. *)
Definition training_job_args (c : call) : option (string * string) :=
  match c with
  | TrainingJob job_name region_name => Some (job_name, region_name)
  | _ => None
  end.

(** The object that is polled for profiling data. *)
Definition wait_target (c : call) : option pyobj :=
  match c with
  | WaitForSysProfilingData job => Some job
  | _ => None
  end.

(** The line that a [print] call writes. *)
Definition printed (c : call) : option string :=
  match c with
  | Print line => Some line
  | _ => None
  end.

(** The reader whose event files are refreshed. *)
Definition refresh_target (c : call) : option pyobj :=
  match c with
  | RefreshEventFileList reader => Some reader
  | _ => None
  end.

(** A kernel in which earlier work has left an estimator and a region. *)
Definition stale : ns name ty :=
  bind_name estimator (Obj 77%nat) (bind_name region "eu-west-1" fresh).

(** A kernel in which [system_metrics_reader] has been bound by hand. *)
Definition with_reader : ns name ty :=
  bind_name system_metrics_reader (Obj 50%nat) fresh.

(** The names that each cell reads before it has bound them itself, in
    the order of [cells]. *)
Definition reads : list (list name) :=
  [ [];
    [];
    [];
    [];
    [profiler_config; hyperparameters; distributions; rules];
    [estimator];
    [estimator];
    [training_job_name; region];
    [system_metrics_reader];
    [estimator];
    [] ].

End Profiling.

(** * Properties *)

(** ** Strings and the local list computations *)

Lemma starts_with_spec (p s : string) :
  starts_with p s = true <-> exists q, s = p +:+ q.
Proof.
  revert s. induction p as [|a p IH]; intros s; simpl.
  - split; [intros _; by exists s | done].
  - destruct s as [|b s].
    + split; [done | intros [q Hq]; discriminate].
    + destruct (Ascii.eqb_spec a b) as [->|Hab].
      * rewrite IH. split; intros [q Hq]; exists q; [by rewrite Hq | by injection Hq].
      * split; [done | intros [q Hq]; injection Hq; intros; by subst].
Qed.

Lemma contains_spec (needle hay : string) :
  contains needle hay = true <-> exists p q, hay = p +:+ needle +:+ q.
Proof.
  split.
  - induction hay as [|a hay IH]; simpl; rewrite orb_true_iff.
    + intros [H|H]; [|done].
      apply starts_with_spec in H as [q Hq]. by exists "", q.
    + intros [H|H].
      * apply starts_with_spec in H as [q Hq]. by exists "", q.
      * destruct (IH H) as (p & q & ->). by exists (String a p), q.
  - intros (p & q & ->). induction p as [|a p IH]; simpl.
    + assert (H : starts_with needle (needle +:+ q) = true)
        by (apply starts_with_spec; by exists q).
      destruct (needle +:+ q); simpl; by rewrite H.
    + rewrite IH. apply orb_true_r.
Qed.

(** On a manifest whose entries all carry a string id, the comprehension
    raises nothing and keeps the ids with the substring, in order. *)
Lemma tc_filter_ok (ml : manifest) (ids : list string) :
  Forall2 has_model_id ml ids ->
  tc_filter ml
  = inr (SStr <$> filter (fun id => contains "-tc-" id = true) ids).
Proof.
  induction 1 as [|m id ml ids Hm _ IH]; [done|].
  unfold has_model_id in Hm. simpl. unfold getitem. rewrite Hm. simpl.
  rewrite filter_cons. destruct (contains "-tc-" id); simpl.
  - rewrite ?Hm, IH. reflexivity.
  - rewrite IH. reflexivity.
Qed.

(** The comprehension completes only on such manifests. *)
Lemma tc_filter_inv (ml : manifest) (l : list scalar) :
  tc_filter ml = inr l -> exists ids, Forall2 has_model_id ml ids.
Proof.
  revert l. induction ml as [|m ml IH]; intros l H.
  - exists []. constructor.
  - simpl in H. unfold getitem in H.
    destruct (m !! "model_id") as [[| | |id]|] eqn:Hm; simpl in H; try done.
    assert (exists l', tc_filter ml = inr l') as [l' Hl'].
    { destruct (contains "-tc-" id); simpl in H; [|by eauto].
      destruct (tc_filter ml); simpl in H; [done | by eauto]. }
    destruct (IH _ Hl') as [ids Hids]. exists (id :: ids). by constructor.
Qed.

Lemma list_contains_str (acc : list scalar) (id : string) :
  list_contains acc (SStr id) = bool_decide (SStr id ∈ acc).
Proof.
  induction acc as [|y acc IH]; simpl; [done|].
  rewrite IH. clear IH.
  assert (Hne : y <> SStr id ->
            bool_decide (SStr id ∈ acc) = bool_decide (SStr id ∈ y :: acc)).
  { intros Hy. apply bool_decide_ext. rewrite elem_of_cons.
    split; [by right | by intros [?|?]]. }
  destruct y as [| |z|s]; simpl; try (by apply Hne).
  destruct (String.eqb_spec s id) as [->|Hs]; simpl.
  - symmetry. apply bool_decide_eq_true. left.
  - apply Hne. congruence.
Qed.

Lemma first_occurrences_filter (P : scalar -> Prop) `{forall x, Decision (P x)}
    (l : list scalar) :
  first_occurrences (filter P l) = filter P (first_occurrences l).
Proof.
  induction l as [|y l IH]; [done|].
  rewrite filter_cons. destruct (decide (P y)) as [Hy|Hy]; simpl.
  - rewrite filter_cons_True by done. f_equal.
    rewrite IH, !list_filter_filter. apply list_filter_iff.
    intros x. tauto.
  - rewrite filter_cons_False by done.
    rewrite IH, list_filter_filter. apply list_filter_iff.
    intros x. assert (Hxy : P x -> x <> y) by (intros Hx Heq; by subst).
    tauto.
Qed.

Lemma dedup_loop_spec (all acc : list scalar) :
  Forall (fun x => exists id, x = SStr id) all ->
  dedup_loop all acc
  = acc ++ first_occurrences (filter (fun x => x ∉ acc) all).
Proof.
  intros Hall. revert acc.
  induction Hall as [|x all [id ->] _ IH]; intros acc; simpl.
  - by rewrite app_nil_r.
  - rewrite list_contains_str, filter_cons.
    destruct (decide (SStr id ∈ acc)) as [Hin|Hin].
    + rewrite bool_decide_eq_true_2 by done. simpl.
      rewrite decide_False by (intros Hn; by apply Hn). apply IH.
    + rewrite bool_decide_eq_false_2 by done. simpl.
      rewrite decide_True by done. simpl.
      rewrite IH, <- app_assoc. simpl. do 2 f_equal.
      rewrite <- first_occurrences_filter. f_equal.
      rewrite list_filter_filter. apply list_filter_iff.
      intros y. rewrite elem_of_app, list_elem_of_singleton. tauto.
Qed.

Lemma elem_of_first_occurrences (x : scalar) (l : list scalar) :
  x ∈ first_occurrences l <-> x ∈ l.
Proof.
  induction l as [|y l IH]; simpl; [done|].
  rewrite !elem_of_cons, list_elem_of_filter, IH.
  destruct (decide (x = y)); tauto.
Qed.

Lemma NoDup_first_occurrences (l : list scalar) : NoDup (first_occurrences l).
Proof.
  induction l as [|y l IH]; simpl; constructor.
  - rewrite list_elem_of_filter. intros [Hy _]. by apply Hy.
  - by apply list.NoDup_filter.
Qed.

Lemma tc_filter_strings (ml : manifest) (l : list scalar) :
  tc_filter ml = inr l -> Forall (fun x => exists id, x = SStr id) l.
Proof.
  intros H. destruct (tc_filter_inv _ _ H) as [ids Hids].
  rewrite (tc_filter_ok _ _ Hids) in H. injection H as <-.
  apply Forall_fmap, Forall_forall. intros id _. by exists id.
Qed.

Lemma first_occurrences_sublist (l : list scalar) :
  first_occurrences l `sublist_of` l.
Proof.
  induction l as [|x l IH]; simpl; [done|].
  apply sublist_skip. etrans; [apply sublist_filter | done].
Qed.

(** The exceptions the comprehension can raise. *)
Lemma tc_filter_raises (ml : manifest) (e : exn) :
  tc_filter ml = inl e ->
  e = KeyError "model_id" \/ e = TypeError "argument is not iterable".
Proof.
  induction ml as [|m ml IH]; simpl; [done|]. unfold getitem.
  destruct (m !! "model_id") as [[| | |id]|]; simpl;
    try (intros [= <-]; by auto).
  destruct (contains "-tc-" id); simpl; [|done].
  destruct (tc_filter ml); simpl; [|done].
  intros [= <-]. by apply IH.
Qed.

Lemma dedup_loop_nil (all : list scalar) :
  Forall (fun x => exists id, x = SStr id) all ->
  dedup_loop all [] = first_occurrences all.
Proof.
  intros Hall. rewrite dedup_loop_spec by done. simpl. f_equal.
  clear Hall. induction all as [|x all IH]; [done|].
  rewrite filter_cons_True by apply not_elem_of_nil. by rewrite IH.
Qed.

(** ** Executions of strict programs *)

Section KernelFacts.
Context {call : Type} {result : call -> Type}.
Context {name : Type} {ty : name -> Type}.
Context {name_dec : EqDecision name} {name_spelling : Spelling name}.
Context {W : Type} (h : handler call result W).

Abbreviation prog := (prog call result name ty).
Abbreviation entry := (entry call result name ty).

Lemma out_res_logged {A} (e : entry) (f : final call result name ty W A) :
  out_res (logged e f) = out_res f.
Proof. by destruct f. Qed.

Lemma out_log_logged {A} (e : entry) (f : final call result name ty W A) :
  out_log (logged e f) = e :: out_log f.
Proof. by destruct f. Qed.

Lemma each_suffix_split (R : entry -> list entry -> Prop) l :
  each_suffix R l -> forall l1 e l2, l = l1 ++ e :: l2 -> R e l2.
Proof.
  intros Hl l1. revert l Hl.
  induction l1 as [|e1 l1 IH]; intros l Hl e l2 ->; simpl in Hl.
  - apply Hl.
  - by eapply IH; [apply Hl|].
Qed.

Section Strict.
Context (cleanup : call -> bool).

Lemma stops_after_failure_cons (e : entry) (l : list entry) :
  failure e = None ->
  stops_after_failure cleanup l -> stops_after_failure cleanup (e :: l).
Proof.
  intros He Hl [|e1 l1] e2 l2 Heq Hf; simplify_eq/=.
  - rewrite He in Hf. by destruct Hf.
  - by eapply Hl.
Qed.

Lemma raises_run {A} (e : exn) (p : nb call result name ty A) s w :
  raises cleanup e p ->
  (out_log (run h p s w) = [] /\ out_res (run h p s w) = inl e) \/
  (exists c r, cleanup c = true /\ out_log (run h p s w) = [LCall c r] /\
               out_res (run h p s w)
               = inl (match r with inl e' => e' | inr _ => e end)).
Proof.
  intros [|c k Hc Hl Hr]; simpl; [by left|right].
  destruct (h c w) as [[e'|v] w']; simpl.
  - exists c, (inl e'). by rewrite Hl.
  - exists c, (inr v). by rewrite Hr.
Qed.

Lemma strict_run {A} (p : nb call result name ty A) :
  strict cleanup p ->
  forall s w,
    raises_last_failure (run h p s w) /\
    stops_after_failure cleanup (out_log (run h p s w)).
Proof.
  unfold raises_last_failure.
  induction 1 as [r|c k Hk _ IH|x k _ IH|x v k _ IH]; intros s w.
  - split; [by intros x Hx|].
    intros l1 e l2 Heq _. simpl in Heq. by destruct l1.
  - simpl. destruct (h c w) as [[e|v] w'].
    + rewrite out_res_logged, out_log_logged.
      destruct (raises_run e (k (inl e)) s w' (Hk e))
        as [[-> ->]|(c' & r' & Hc' & -> & ->)]; split.
      * simpl. congruence.
      * intros l1 e1 l2 Heq _.
        destruct l1 as [|? [|]]; simplify_eq/=. by left.
      * unfold failures. simpl. destruct r'; simpl; congruence.
      * intros l1 e1 l2 Heq _.
        destruct l1 as [|? [|? [|]]]; simplify_eq/=; [right|left]; eauto.
    + rewrite out_res_logged, out_log_logged.
      destruct (IH v s w') as [IH1 IH2]. split; [done|].
      by apply stops_after_failure_cons.
  - apply IH.
  - simpl. rewrite out_res_logged, out_log_logged.
    destruct (IH (bind_name x v s) w) as [IH1 IH2]. split; [done|].
    by apply stops_after_failure_cons.
Qed.
End Strict.
End KernelFacts.

(** ** The JumpStart notebook *)

Module JumpStartFacts.
Import JumpStart.

(** Decides that a cell is strict by going through its steps. *)
Ltac shape :=
  repeat first
    [ apply strict_ret
    | apply strict_write
    | apply strict_read; intros [?|]
    | apply strict_call; [intros ? | intros ?]
    | apply raises_now
    | eapply raises_after_cleanup; [reflexivity | intros ?; reflexivity ..]
    | match goal with
      | |- context [tc_filter ?ml] => destruct (tc_filter ml)
      end
    | progress cbn ].

(** Executes notebook code against an arbitrary world [h]: one case for
    each answer of each call. *)
Ltac exec h :=
  repeat first
    [ progress cbn
    | match goal with
      | |- context [h ?c ?w] =>
          let E := fresh "E" in
          destruct (h c w) as [[?|?] ?] eqn:E
      | |- context [tc_filter ?ml] =>
          let E := fresh "E" in
          destruct (tc_filter ml) eqn:E
      end ].

(** The same from an arbitrary namespace [s]: one more case for each
    name read. *)
Ltac exec_from h s :=
  repeat first
    [ progress cbn
    | match goal with
      | H : s ?x = _ |- context [s ?x] => rewrite H
      | |- context [h ?c ?w] =>
          let E := fresh "E" in
          destruct (h c w) as [[?|?] ?] eqn:E
      | |- context [s ?x] =>
          let E := fresh "E" in
          destruct (s x) eqn:E
      | |- context [tc_filter ?ml] =>
          let E := fresh "E" in
          destruct (tc_filter ml) eqn:E
      end ].

Lemma jumpstart_cells_strict : Forall (strict is_close) cells.
Proof. repeat (apply Forall_cons; [shape|]). apply Forall_nil. Qed.

Lemma jumpstart_cells_follow_scripts :
  Forall2 (fun c script =>
             forall W (h : handler call result W) s w,
               callee <$> calls (out_log (run h c s w)) `prefix_of` script)
          cells scripts.
Proof.
  repeat (apply List.Forall2_cons;
          [intros W h s w; exec_from h s; by eexists|]).
  apply List.Forall2_nil.
Qed.

(** What the model-selection cell does once it has read a manifest. *)
Lemma select_model_run W (h : handler call result W) s w :
  forall ml,
    manifest_read (out_log (run h cell_select_model s w)) = Some ml ->
    match tc_filter ml with
    | inl e =>
        out_res (run h cell_select_model s w) = inl e /\
        failures (out_log (run h cell_select_model s w)) = []
    | inr all_versions =>
        let f := run h cell_select_model s w in
        let options := dedup_loop all_versions [] in
        bound tc_models_all_versions (out_log f) = [all_versions] /\
        out_ns f tc_models_all_versions = Some all_versions /\
        bound tc_models (out_log f) = [[]; options] /\
        out_ns f tc_models = Some options /\
        (forall value,
           s model_id = Some value ->
           omap dropdown_args (calls (out_log f)) = [(value, options)] /\
           (existsb dropdown_failed (out_log f) = true ->
            exists description style layout w' e,
              (h (Dropdown value options description style layout) w').1
              = inl e))
    end.
Proof.
  exec_from h s; intros ml Hml; cbn in Hml; try discriminate Hml;
    injection Hml as <-;
    match goal with E : tc_filter _ = _ |- _ => rewrite E end;
    try done.
  all: repeat (split; [done|]).
  all: intros value Hv; try discriminate Hv; injection Hv as <-.
  all: split; [done|]; intros Hf; try discriminate Hf.
  all: repeat eexists;
    match goal with E : _ (Dropdown _ _ _ _ _) _ = _ |- _ => by rewrite E end.
Qed.

(** C1: for every manifest whose records carry a string [model_id], the
    model-selection step binds [tc_models_all_versions] to exactly the
    ids that contain ["-tc-"], in manifest order: an id is kept if and
    only if it is in the manifest and contains the substring. *)
Theorem tc_models_all_versions_filtered W (h : handler call result W) s w
    (ml : manifest) (ids : list string) :
  let f := run h cell_select_model s w in
  let kept := filter (fun id => contains "-tc-" id = true) ids in
  manifest_read (out_log f) = Some ml ->
  Forall2 has_model_id ml ids ->
  bound tc_models_all_versions (out_log f) = [SStr <$> kept] /\
  out_ns f tc_models_all_versions = Some (SStr <$> kept) /\
  (forall id,
     id ∈ kept <-> id ∈ ids /\ exists p q, id = p +:+ "-tc-" +:+ q) /\
  kept `sublist_of` ids.
Proof.
  intros f kept Hread Hids.
  pose proof (select_model_run W h s w ml Hread) as Hrun.
  rewrite (tc_filter_ok ml ids Hids) in Hrun.
  destruct Hrun as (Hbound & Hns & _).
  split; [done|]. split; [done|]. split; [|apply sublist_filter].
  intros id. unfold kept. rewrite list_elem_of_filter, contains_spec. tauto.
Qed.

Lemma tc_models_all_versions_filtered_witness :
  let f := run demo cell_select_model before_selection 0%nat in
  manifest_read (out_log f) = Some demo_manifest /\
  Forall2 has_model_id demo_manifest demo_ids /\
  out_ns f tc_models_all_versions
  = Some [SStr "tensorflow-tc-bert-en-uncased-L-12-H-768-A-12-2";
          SStr "tensorflow-tc-bert-en-uncased-L-12-H-768-A-12-2";
          SStr "huggingface-tc-distilbert-base-cased"].
Proof.
  assert (H1 : manifest_read
                 (out_log (run demo cell_select_model before_selection 0%nat))
               = Some demo_manifest) by reflexivity.
  assert (H2 : Forall2 has_model_id demo_manifest demo_ids)
    by (repeat constructor; reflexivity).
  split; [exact H1|]. split; [exact H2|].
  exact (proj1 (proj2 (tc_models_all_versions_filtered
                         nat demo before_selection 0%nat
                         demo_manifest demo_ids H1 H2))).
Defined.

(** C9: for every manifest on which the filter completes, [tc_models],
    the list offered in the dropdown, holds each element of
    [tc_models_all_versions] exactly once, in the order of the first
    occurrences, and nothing else. *)
Theorem tc_models_deduplicated W (h : handler call result W) s w
    (ml : manifest) (all_versions : list scalar) :
  let f := run h cell_select_model s w in
  manifest_read (out_log f) = Some ml ->
  tc_filter ml = inr all_versions ->
  exists options,
    bound tc_models_all_versions (out_log f) = [all_versions] /\
    out_ns f tc_models = Some options /\
    list.last (bound tc_models (out_log f)) = Some options /\
    (forall value,
       s model_id = Some value ->
       omap dropdown_args (calls (out_log f)) = [(value, options)]) /\
    options = first_occurrences all_versions /\
    NoDup options /\
    (forall x, x ∈ options <-> x ∈ all_versions) /\
    options `sublist_of` all_versions.
Proof.
  intros f Hread Hall.
  pose proof (select_model_run W h s w ml Hread) as Hrun.
  rewrite Hall in Hrun. cbn zeta in Hrun.
  rewrite (dedup_loop_nil all_versions (tc_filter_strings _ _ Hall)) in Hrun.
  destruct Hrun as (Hb & _ & Hbt & Hns & Hd).
  exists (first_occurrences all_versions).
  repeat split; try done.
  - unfold f. by rewrite Hbt.
  - intros value Hv. by apply Hd.
  - apply NoDup_first_occurrences.
  - apply elem_of_first_occurrences.
  - apply elem_of_first_occurrences.
  - apply first_occurrences_sublist.
Qed.

Lemma tc_models_deduplicated_witness :
  let f := run demo cell_select_model before_selection 0%nat in
  let all_versions :=
    [SStr "tensorflow-tc-bert-en-uncased-L-12-H-768-A-12-2";
     SStr "tensorflow-tc-bert-en-uncased-L-12-H-768-A-12-2";
     SStr "huggingface-tc-distilbert-base-cased"] in
  manifest_read (out_log f) = Some demo_manifest /\
  tc_filter demo_manifest = inr all_versions /\
  exists options,
    out_ns f tc_models = Some options /\
    options = first_occurrences all_versions /\
    NoDup options.
Proof.
  assert (H1 : manifest_read
                 (out_log (run demo cell_select_model before_selection 0%nat))
               = Some demo_manifest) by reflexivity.
  assert (H2 : tc_filter demo_manifest
               = inr [SStr "tensorflow-tc-bert-en-uncased-L-12-H-768-A-12-2";
                      SStr "tensorflow-tc-bert-en-uncased-L-12-H-768-A-12-2";
                      SStr "huggingface-tc-distilbert-base-cased"])
    by reflexivity.
  split; [exact H1|]. split; [exact H2|].
  destruct (tc_models_deduplicated nat demo before_selection 0%nat
              demo_manifest _ H1 H2)
    as (options & _ & Hns & _ & _ & Heq & Hnd & _).
  exists options. by repeat split.
Defined.

Lemma default_in_options (ids : list string) :
  default_model_id ∈ ids ->
  SStr default_model_id
  ∈ dedup_loop (SStr <$> filter (fun id => contains "-tc-" id = true) ids) [].
Proof.
  intros Hin. rewrite dedup_loop_nil.
  - apply elem_of_first_occurrences, list_elem_of_fmap_2,
      list_elem_of_filter.
    by split.
  - apply Forall_fmap, Forall_forall. intros id _. by exists id.
Qed.

(** C10: the default model id contains ["-tc-"]; so, for every manifest
    that lists it, the default is among the options with which the
    [Dropdown] is constructed, with the default as its value, and the
    construction does not raise (given that [Dropdown] accepts a value
    that is among its options). *)
Theorem default_model_offered W (h : handler call result W) s w
    (ml : manifest) (ids : list string) :
  let f := run h cell_select_model s w in
  s model_id = Some (SStr default_model_id) ->
  manifest_read (out_log f) = Some ml ->
  Forall2 has_model_id ml ids ->
  default_model_id ∈ ids ->
  contains "-tc-" default_model_id = true /\
  exists options,
    out_ns f tc_models = Some options /\
    SStr default_model_id ∈ options /\
    omap dropdown_args (calls (out_log f))
    = [(SStr default_model_id, options)] /\
    (accepts_listed_values h ->
     existsb dropdown_failed (out_log f) = false).
Proof.
  intros f Hdefault Hread Hids Hin. split; [reflexivity|].
  pose proof (select_model_run W h s w ml Hread) as Hrun.
  rewrite (tc_filter_ok ml ids Hids) in Hrun.
  destruct Hrun as (_ & _ & _ & Hns & Hd).
  destruct (Hd _ Hdefault) as [Hargs Hfail].
  pose proof (default_in_options ids Hin) as Hopt.
  eexists. repeat split; [exact Hns | exact Hopt | exact Hargs |].
  intros Hacc.
  destruct (existsb dropdown_failed (out_log f)) eqn:Hf; [|done].
  destruct (Hfail Hf) as (description & style & layout & w' & e & He).
  destruct (Hacc _ _ description style layout w' Hopt) as [widget Hw].
  congruence.
Qed.

Lemma demo_accepts (ml : manifest) : accepts_listed_values (demo_with ml).
Proof. intros value options description style layout w _. by eexists. Defined.

Lemma default_model_offered_witness :
  let f := run demo cell_select_model before_selection 0%nat in
  before_selection model_id = Some (SStr default_model_id) /\
  manifest_read (out_log f) = Some demo_manifest /\
  Forall2 has_model_id demo_manifest demo_ids /\
  default_model_id ∈ demo_ids /\
  accepts_listed_values demo /\
  omap dropdown_args (calls (out_log f))
  = [(SStr default_model_id,
      [SStr "tensorflow-tc-bert-en-uncased-L-12-H-768-A-12-2";
       SStr "huggingface-tc-distilbert-base-cased"])] /\
  existsb dropdown_failed (out_log f) = false.
Proof.
  assert (H0 : before_selection model_id = Some (SStr default_model_id))
    by reflexivity.
  assert (H1 : manifest_read
                 (out_log (run demo cell_select_model before_selection 0%nat))
               = Some demo_manifest) by reflexivity.
  assert (H2 : Forall2 has_model_id demo_manifest demo_ids)
    by (repeat constructor; reflexivity).
  assert (H3 : default_model_id ∈ demo_ids) by left.
  destruct (default_model_offered nat demo before_selection 0%nat
              demo_manifest demo_ids H0 H1 H2 H3)
    as (_ & options & Hns & _ & Hargs & Hok).
  split; [exact H0|]. split; [exact H1|]. split; [exact H2|].
  split; [exact H3|]. split; [apply demo_accepts|].
  split; [reflexivity|].
  apply Hok, demo_accepts.
Defined.

(** C4: in every execution of the notebook the endpoint operations are an
    initial part of: deploy, predict on the first sentence, predict on
    the second sentence, delete; they are exactly these when no step
    fails.  So deploy precedes every prediction, one prediction is made
    for each sentence in order, the deletion comes after both, nothing at
    all follows the deletion, and the predictions and the deletion
    address the predictor that deploy returned. *)
Theorem endpoint_lifecycle W (h : handler call result W) (w : W) :
  let f := run_all h cells fresh w in
  endpoint_ops (out_log f)
    `prefix_of` [OpDeploy; OpPredict sentence1; OpPredict sentence2; OpDelete]
  /\ (out_res f = inr tt ->
      endpoint_ops (out_log f)
      = [OpDeploy; OpPredict sentence1; OpPredict sentence2; OpDelete])
  /\ (forall l1 e l2,
        out_log f = l1 ++ e :: l2 -> deletes e = true -> l2 = [])
  /\ Forall (fun c => forall p, target c = Some p ->
                                omap deployed (out_log f) = [p])
            (calls (out_log f)).
Proof.
  exec h.
  all: split; [by eexists|].
  all: split; [by intros|].
  all: split;
    [apply (each_suffix_split (fun e l2 => deletes e = true -> l2 = []));
     cbn; repeat split; intros; by try discriminate|].
  all: repeat (apply Forall_cons;
               [intros p Ht; cbn in Ht; try discriminate Ht;
                injection Ht as <-; reflexivity|]).
  all: apply Forall_nil.
Qed.

Lemma endpoint_lifecycle_witness :
  let f := run_all demo cells fresh 0%nat in
  out_res f = inr tt /\
  endpoint_ops (out_log f)
  = [OpDeploy; OpPredict sentence1; OpPredict sentence2; OpDelete].
Proof.
  assert (H : out_res (run_all demo cells fresh 0%nat) = inr tt)
    by reflexivity.
  split; [exact H|].
  exact (proj1 (proj2 (endpoint_lifecycle nat demo 0%nat)) H).
Defined.

Lemma jumpstart_install_relays (s : ns name ty) :
  relays cell_install
    (Shell "pip install sagemaker ipywidgets --upgrade --quiet") s.
Proof.
  intros W h w. cbn. destruct (h _ w) as [[?|[]] ?]; by cbn.
Qed.

Lemma jumpstart_read_selection_relays (s : ns name ty) (widget : pyobj) :
  s dropdown = Some widget ->
  relays cell_read_selection (DropdownValue widget) s /\
  binds_answer cell_read_selection (DropdownValue widget) model_id
    eq_refl s.
Proof.
  intros Hs. split.
  - intros W h w. cbn. rewrite Hs. cbn.
    destruct (h (DropdownValue widget) w) as [[?|?] ?]; by cbn.
  - intros W h w v Hv. cbn. rewrite Hs. cbn.
    destruct (h (DropdownValue widget) w) as [[?|?] ?]; cbn in *; by simplify_eq.
Qed.

Lemma jumpstart_estimator_relays (s : ns name ty) (model : scalar) :
  s model_id = Some model ->
  let c := JumpStartEstimator model
             [("epochs", SStr "1"); ("batch_size", SStr "64")] in
  relays cell_estimator c s /\
  binds_answer cell_estimator c estimator eq_refl s.
Proof.
  intros Hs c. subst c. split.
  - intros W h w. cbn. rewrite Hs. cbn.
    destruct (h (JumpStartEstimator _ _) w) as [[?|?] ?]; by cbn.
  - intros W h w v Hv. cbn. rewrite Hs. cbn.
    destruct (h (JumpStartEstimator _ _) w) as [[?|?] ?]; cbn in *;
      by simplify_eq.
Qed.

Lemma jumpstart_fit_relays (s : ns name ty) (est : pyobj) (path : string) :
  s estimator = Some est ->
  s training_dataset_s3_path = Some path ->
  relays cell_fit (Fit est [("training", path)] true) s.
Proof.
  intros Hs Hp W h w. cbn. rewrite Hs. cbn. rewrite Hp. cbn.
  destruct (h _ w) as [[?|[]] ?]; by cbn.
Qed.

Lemma jumpstart_deploy_relays (s : ns name ty) (est : pyobj) :
  s estimator = Some est ->
  relays cell_deploy (Deploy est) s /\
  binds_answer cell_deploy (Deploy est) predictor eq_refl s.
Proof.
  intros Hs. split.
  - intros W h w. cbn. rewrite Hs. cbn.
    destruct (h (Deploy est) w) as [[?|?] ?]; by cbn.
  - intros W h w v Hv. cbn. rewrite Hs. cbn.
    destruct (h (Deploy est) w) as [[?|?] ?]; cbn in *; by simplify_eq.
Qed.

Lemma jumpstart_cleanup_relays (s : ns name ty) (pred : pyobj) :
  s predictor = Some pred ->
  relays cell_cleanup (DeletePredictor pred) s.
Proof.
  intros Hs W h w. cbn. rewrite Hs. cbn.
  destruct (h _ w) as [[?|[]] ?]; by cbn.
Qed.

Lemma jumpstart_cells_propagate :
  Forall (fun c =>
            forall W (h : handler call result W) s w,
              raises_last_failure (run h c s w) /\
              stops_after_failure is_close (out_log (run h c s w)))
         cells.
Proof.
  apply Forall_forall. intros c Hin W h s w.
  pose proof (proj1 (Forall_forall _ _) jumpstart_cells_strict c Hin) as Hc.
  exact (strict_run h is_close c Hc s w).
Qed.

(** In an execution of the whole notebook an exception is that of the
    last failed call or, when no call failed, the one that the filter
    raised on the manifest that was read. *)
Lemma jumpstart_run_all_propagates W (h : handler call result W) (w : W) :
  let f := run_all h cells fresh w in
  raises_last_failure f /\
  forall x,
    out_res f = inl x ->
    list.last (failures (out_log f)) = Some x \/
    (failures (out_log f) = [] /\
     exists ml, manifest_read (out_log f) = Some ml /\
                tc_filter ml = inl x /\
                (x = KeyError "model_id" \/
                 x = TypeError "argument is not iterable")).
Proof.
  unfold raises_last_failure.
  exec h; (split; [intros x Hx; cbn in Hx; congruence|]);
    intros x Hx; try discriminate Hx; injection Hx as <-;
    first [ by left
          | right; split; [reflexivity|]; eexists; split; [reflexivity|];
            split; [eassumption | by eapply tc_filter_raises] ].
Qed.
End JumpStartFacts.

(** ** The profiling notebook *)

Module ProfilingFacts.
Import Profiling.

(** Decides that a cell is strict by going through its steps. *)
Ltac shape :=
  repeat first
    [ apply strict_ret
    | apply strict_write
    | apply strict_read; intros [?|]
    | apply strict_call; [intros ? | intros ?]
    | apply raises_now
    | progress cbn ].

(** Executes notebook code against an arbitrary world [h]: one case for
    each answer of each call. *)
Ltac exec h :=
  repeat first
    [ progress cbn
    | match goal with
      | |- context [h ?c ?w] =>
          let E := fresh "E" in
          destruct (h c w) as [[?|?] ?] eqn:E
      end ].

(** The same from an arbitrary namespace [s]: one more case for each
    name read. *)
Ltac exec_from h s :=
  repeat first
    [ progress cbn
    | match goal with
      | H : s ?x = _ |- context [s ?x] => rewrite H
      | |- context [h ?c ?w] =>
          let E := fresh "E" in
          destruct (h c w) as [[?|?] ?] eqn:E
      | |- context [s ?x] =>
          let E := fresh "E" in
          destruct (s x) eqn:E
      end ].

Lemma profiling_cells_strict : Forall (strict no_cleanup) cells.
Proof. repeat (apply Forall_cons; [shape|]). apply Forall_nil. Qed.

Lemma profiling_cells_follow_scripts :
  Forall2 (fun c script =>
             forall W (h : handler call result W) s w,
               callee <$> calls (out_log (run h c s w)) `prefix_of` script)
          cells scripts.
Proof.
  repeat (apply List.Forall2_cons;
          [intros W h s w; exec_from h s; by eexists|]).
  apply List.Forall2_nil.
Qed.

(** C3: in every execution of the notebook, the hyperparameters, the
    distribution descriptor, the rule list and the profiler configuration
    are bound in this order before the one submission of the training
    job; the submission does not wait; and every call after it is a
    query of the region, of the job name or of the artifact path, a poll
    for profiling data, or printed output.  The cells below the
    submitting cell issue only such calls from any namespace. *)
Theorem submission_flow W (h : handler call result W) (w : W) :
  let l := out_log (run_all h cells fresh w) in
  omap milestone l
    `prefix_of` [StHyperparameters; StDistribution; StRules;
                 StProfilerConfig; StSubmit]
  /\ Forall (fun c => forall wait, fit_wait c = Some wait -> wait = false)
            (calls l)
  /\ (forall l1 e l2,
        l = l1 ++ e :: l2 -> milestone e = Some StSubmit ->
        Forall (fun c => passive (interaction_of c) = true) (calls l2))
  /\ (exists before, cells = before ++ cell_fit :: after_submission)
  /\ Forall (fun c =>
               forall s w',
                 Forall (fun c => passive (interaction_of c) = true)
                        (calls (out_log (run h c s w'))))
            after_submission.
Proof.
  split; [|split; [|split; [|split]]].
  - exec h; by eexists.
  - exec h;
      repeat (apply Forall_cons;
              [intros wait Hw; cbn in Hw; try discriminate Hw;
                 by injection Hw as <-|]);
      apply Forall_nil.
  - apply (each_suffix_split
             (fun e l2 => milestone e = Some StSubmit ->
                          Forall (fun c => passive (interaction_of c) = true)
                                 (calls l2))).
    exec h; repeat split; intros; try discriminate;
      cbn; by repeat constructor.
  - by exists [cell_hyperparameters; cell_distributions; cell_rules;
               cell_profiler_config; cell_estimator].
  - repeat (apply Forall_cons;
            [intros s w'; exec_from h s; by repeat constructor|]).
    apply Forall_nil.
Qed.

Lemma submission_flow_witness :
  let l := out_log (run_all demo cells fresh 0%nat) in
  omap milestone l
  = [StHyperparameters; StDistribution; StRules; StProfilerConfig; StSubmit]
  /\ calls (drop 16 l)
     = [Boto3Session; RegionName (Obj 9); LatestTrainingJob (Obj 8);
        Name (Obj 10);
        Print "Training jobname: tensorflow-training-2021-01-01-00-00-00-000";
        Print "Region: us-west-2";
        TrainingJob "tensorflow-training-2021-01-01-00-00-00-000"
          "us-west-2";
        WaitForSysProfilingData (Obj 11)]
  /\ Forall (fun c => passive (interaction_of c) = true) (calls (drop 16 l)).
Proof.
  split; [reflexivity|]. split; [reflexivity|].
  refine (proj1 (proj2 (proj2 (submission_flow nat demo 0%nat)))
            (take 15 (out_log (run_all demo cells fresh 0%nat)))
            (LCall (Fit (Obj 8) false) (inr tt))
            _ _ _); reflexivity.
Defined.



(** C5 (what the code does): the profiler-configuration cell constructs
    [FrameworkProfile] with the one keyword [num_steps=10]; no start step
    is given, so the range announced by the notebook's text (steps 5 to
    15) is not what is passed.  [ProfilerConfig] is constructed with the
    interval 500 and the [FrameworkProfile] object. *)
Theorem profiler_config_arguments W (h : handler call result W) s w :
  let l := out_log (run h cell_profiler_config s w) in
  omap framework_profile_kwargs (calls l) = [[("num_steps", SInt 10)]]
  /\ Forall (fun kwargs : dict => "start_step" ∉ (kwargs.*1))
            (omap framework_profile_kwargs (calls l))
  /\ (documented_step_range ∉ omap framework_profile_kwargs (calls l))
  /\ Forall (fun args => args.1 = 500 /\
                         omap framework_profile_object l = [args.2])
            (omap profiler_config_args (calls l)).
Proof.
  exec_from h s; repeat split; try done;
    try (by repeat constructor);
    try (apply Forall_cons; [|apply Forall_nil]);
    try (intros ?%list_elem_of_singleton; discriminate).
Qed.

(** C6: the rule-output cell binds [rule_output_path] to the estimator's
    output path, followed by the name of the latest training job,
    followed by ["/rule-output"], and to nothing else. *)
Theorem rule_output_path_concatenation W (h : handler call result W)
    (s : ns name ty) (w : W) (est job : pyobj) (out jn : string) (w1 w2 w3 : W) :
  s estimator = Some est ->
  h (OutputPath est) w = (inr out, w1) ->
  h (LatestTrainingJob est) w1 = (inr job, w2) ->
  h (JobName job) w2 = (inr jn, w3) ->
  let f := run h cell_rule_output s w in
  bound rule_output_path (out_log f) = [(out +:+ jn) +:+ "/rule-output"]
  /\ out_ns f rule_output_path = Some ((out +:+ jn) +:+ "/rule-output")
  /\ omap output_path_answer (out_log f) = [out]
  /\ omap job_name_answer (out_log f) = [jn].
Proof.
  intros Hest Hout Hjob Hjn.
  repeat (cbn; rewrite ?Hest, ?Hout, ?Hjob, ?Hjn).
  destruct (h _ w3) as [[?|?] ?]; by cbn.
Qed.

Lemma rule_output_path_concatenation_witness :
  let f := run demo cell_rule_output after_polling 20%nat in
  after_polling estimator = Some (Obj 8) /\
  out_ns f rule_output_path
  = Some "s3://sagemaker-us-west-2-111122223333/tensorflow-training-2021-01-01-00-00-00-000/rule-output".
Proof.
  split; [reflexivity|].
  exact (proj1 (proj2 (rule_output_path_concatenation
                         nat demo after_polling 20%nat
                         (Obj 8) (Obj 20)
                         "s3://sagemaker-us-west-2-111122223333/"
                         "tensorflow-training-2021-01-01-00-00-00-000"
                         20%nat 21%nat 21%nat
                         eq_refl eq_refl eq_refl eq_refl))).
Defined.

Lemma profiling_fit_relays (s : ns name ty) (est : pyobj) :
  s estimator = Some est -> relays cell_fit (Fit est false) s.
Proof.
  intros Hs W h w. cbn. rewrite Hs. cbn.
  destruct (h (Fit est false) w) as [[?|[]] ?]; by cbn.
Qed.

Lemma profiling_cells_propagate :
  Forall (fun c =>
            forall W (h : handler call result W) s w,
              raises_last_failure (run h c s w) /\
              (forall l1 e l2,
                 out_log (run h c s w) = l1 ++ e :: l2 ->
                 is_Some (failure e) -> l2 = []))
         cells.
Proof.
  apply Forall_forall. intros c Hin W h s w.
  pose proof (proj1 (Forall_forall _ _) profiling_cells_strict c Hin) as Hc.
  destruct (strict_run h no_cleanup c Hc s w) as [H1 H2].
  split; [done|]. intros l1 e l2 Hl He.
  destruct (H2 l1 e l2 Hl He) as [?|(? & ? & ? & _)]; done.
Qed.

Lemma profiling_run_all_propagates W (h : handler call result W) (w : W) :
  raises_last_failure (run_all h cells fresh w).
Proof.
  unfold raises_last_failure.
  exec h; intros x Hx; cbn in Hx; congruence.
Qed.
End ProfilingFacts.

(** ** The steps of both notebooks *)







(** ** Further properties of the local list computations *)

Lemma py_eq_refl (a : scalar) : py_eq a a = true.
Proof.
  destruct a as [|b|z|s]; simpl; [done| |apply Z.eqb_refl|apply String.eqb_refl].
  by destruct b.
Qed.

Lemma py_eq_sym (a b : scalar) : py_eq a b = py_eq b a.
Proof.
  destruct a as [|x|x|x], b as [|y|y|y]; simpl; try done.
  - by destruct x, y.
  - apply Z.eqb_sym.
  - apply Z.eqb_sym.
  - apply Z.eqb_sym.
  - apply String.eqb_sym.
Qed.

Lemma list_contains_app (l1 l2 : list scalar) (x : scalar) :
  list_contains (l1 ++ l2) x = list_contains l1 x || list_contains l2 x.
Proof. apply existsb_app. Qed.

Lemma py_distinct_snoc (acc : list scalar) (x : scalar) :
  py_distinct acc = true -> list_contains acc x = false ->
  py_distinct (acc ++ [x]) = true.
Proof.
  induction acc as [|y acc IH]; simpl; [done|].
  rewrite andb_true_iff, negb_true_iff, orb_false_iff.
  intros [Hy Hacc] [Hyx Hx].
  rewrite list_contains_app, Hy, (IH Hacc Hx). simpl.
  by rewrite py_eq_sym, Hyx.
Qed.

(** The comprehension on a manifest made of two parts. *)
Lemma tc_filter_app (a b : manifest) :
  tc_filter (a ++ b)
  = (x ← tc_filter a; y ← tc_filter b; mret (x ++ y)).
Proof.
  induction a as [|m a IH]; simpl.
  - by destruct (tc_filter b).
  - destruct (getitem m "model_id") as [e|v]; simpl; [done|].
    destruct (str_in "-tc-" v) as [e|[]]; simpl; [done| |done].
    rewrite IH. destruct (tc_filter a); simpl; [done|].
    by destruct (tc_filter b).
Qed.


(** The deduplication on arbitrary Python values, equal in the sense of
    [==] (so that [True] and [1] are duplicates of each other): the loop
    only appends to the list it is given, what it appends is a sublist of
    its input, no two elements of the result are equal, and every element
    of the input is equal to an element of the result. *)
Theorem dedup_loop_python_equality (all acc : list scalar) :
  py_distinct acc = true ->
  exists added,
    dedup_loop all acc = acc ++ added /\
    added `sublist_of` all /\
    py_distinct (dedup_loop all acc) = true /\
    Forall (fun x => list_contains (dedup_loop all acc) x = true) all.
Proof.
  revert acc. induction all as [|model rest IH]; intros acc Hacc; simpl.
  - exists []. rewrite app_nil_r. by repeat split.
  - destruct (list_contains acc model) eqn:Hm; simpl.
    + destruct (IH acc Hacc) as (added & Heq & Hsub & Hd & Hall).
      exists added. repeat split; [done|by apply sublist_cons|done|].
      constructor; [|done].
      by rewrite Heq, list_contains_app, Hm.
    + destruct (IH (acc ++ [model]) (py_distinct_snoc _ _ Hacc Hm))
        as (added & Heq & Hsub & Hd & Hall).
      exists (model :: added).
      split; [by rewrite Heq, <- (assoc_L (++))|].
      split; [by apply sublist_skip|]. split; [done|].
      constructor; [|done].
      rewrite Heq, !list_contains_app. simpl.
      by rewrite py_eq_refl, orb_true_r.
Qed.

Lemma dedup_loop_python_equality_witness :
  py_distinct [] = true /\
  dedup_loop [SInt 1; SStr "a"; SBool true; SStr "a"; SInt 0; SBool false] []
  = [SInt 1; SStr "a"; SInt 0] /\
  exists added,
    dedup_loop [SInt 1; SStr "a"; SBool true; SStr "a"; SInt 0; SBool false] []
    = [] ++ added /\
    py_distinct added = true.
Proof.
  split; [reflexivity|]. split; [reflexivity|].
  destruct (dedup_loop_python_equality
              [SInt 1; SStr "a"; SBool true; SStr "a"; SInt 0; SBool false] []
              eq_refl) as (added & Heq & _ & Hd & _).
  exists added. split; [exact Heq|]. rewrite Heq in Hd. exact Hd.
Defined.

(** ** The flow of values through the JumpStart notebook *)

Module JumpStartFlow.
Import JumpStart JumpStartFacts.

(** Executes a whole notebook once, whatever the number of places at
    which the statement mentions the execution. *)
Ltac exec_once h :=
  match goal with
  | |- context [run_all h ?cs ?s ?w] =>
      let f := fresh "f" in
      let Hf := fresh "Hf" in
      remember (run_all h cs s w) as f eqn:Hf;
      revert Hf; exec h; intros ->; cbn
  end.

(** Answers of type [unit] are [()]. *)
Ltac units :=
  repeat match goal with
         | u : result ?c |- _ =>
             let T := eval cbn in (result c) in
             match T with unit => destruct u end
         end.

Ltac find_entry :=
  repeat first [apply list_elem_of_here | apply list_elem_of_further].

(** Finds in a log the calls whose answers flow into a later call. *)
Ltac flow :=
  unfold returned; units; cbn;
  repeat first [ reflexivity | split | eexists | find_entry ].

(** The same for each element of a list of observations. *)
Ltac each_flow :=
  repeat first [ apply Forall_nil | apply Forall_cons; [flow|] ].

(** The [with] statement of the model-selection cell: whatever the calls
    answer and from whatever namespace the cell runs, a file that [open]
    returned is closed, once, and nothing else is closed, also when
    [json.load] raises; [json.load] reads the file that was opened; and
    [model_list] is bound to what [json.load] returned, and not bound when
    it raised. *)
Theorem manifest_file_closed W (h : handler call result W) s w :
  let l := out_log (run h cell_select_model s w) in
  omap close_of (calls l) = omap opened l
  /\ (length (omap opened l) <= 1)%nat
  /\ Forall (fun fp => omap opened l = [fp]) (omap json_load_args (calls l))
  /\ bound model_list l = omap json_loaded l.
Proof.
  exec_from h s; (split; [done|]); (split; [cbn; lia|]); (split; [|done]);
    by repeat constructor.
Qed.

(** Where the manifest comes from: in every execution of the notebook the
    download goes through the S3 client, from the bucket
    ["jumpstart-cache-prod-"] followed by the region name that the setup
    cell read from the boto3 session, with the key
    ["models_manifest.json"]; and the file that is opened, for reading in
    binary mode, is the file the download wrote. *)
Theorem manifest_location W (h : handler call result W) (w : W) :
  let l := out_log (run_all h cells fresh w) in
  Forall (fun '(client, bucket, key, filename) =>
            key = "models_manifest.json" /\
            returned l (Boto3Client "s3") client /\
            exists session region,
              returned l Boto3Session session /\
              returned l (RegionName session) region /\
              bound aws_region l = [region] /\
              bucket = "jumpstart-cache-prod-" +:+ region)
         (omap download_args (calls l))
  /\ Forall (fun '(file, mode) =>
               mode = "rb" /\
               exists client bucket key,
                 returned l (DownloadFile client bucket key file) tt)
            (omap open_args (calls l)).
Proof.
  exec_once h; (split; each_flow).
Qed.

Lemma manifest_location_witness :
  let l := out_log (run_all demo cells fresh 0%nat) in
  omap download_args (calls l)
  = [(Obj 2%nat, "jumpstart-cache-prod-us-west-2", "models_manifest.json",
      "models_manifest.json")] /\
  exists session region,
    returned l (RegionName session) region /\
    "jumpstart-cache-prod-us-west-2" = "jumpstart-cache-prod-" +:+ region.
Proof.
  split; [reflexivity|].
  pose proof (proj1 (manifest_location nat demo 0%nat)) as H.
  apply Forall_cons_1 in H as [(_ & _ & session & region & _ & Hr & _ & Hb) _].
  by exists session, region.
Defined.

(** The model that is trained is the one selected in the dropdown: in
    every execution the estimator is constructed with the value that
    [dropdown.value] returned, whatever it is, and with the
    hyperparameters [epochs = "1"] and [batch_size = "64"]; the default
    id is the first binding of [model_id] and is replaced by the
    selection. *)
Theorem selected_model_trained W (h : handler call result W) (w : W) :
  let f := run_all h cells fresh w in
  let l := out_log f in
  Forall (fun '(model, hyperparameters) =>
            hyperparameters = [("epochs", SStr "1"); ("batch_size", SStr "64")]
            /\ (exists widget value options description style layout,
                  returned l (Dropdown value options description style layout)
                    widget /\
                  returned l (DropdownValue widget) model)
            /\ bound model_id l = [SStr default_model_id; model])
         (omap estimator_args (calls l))
  /\ (exists model, bound model_id l `prefix_of` [SStr default_model_id; model])
  /\ (out_res f = inr tt ->
      exists model,
        out_ns f model_id = Some model /\
        exists hyperparameters,
          omap estimator_args (calls l) = [(model, hyperparameters)]).
Proof.
  exec_once h.
  all: split; [each_flow|].
  all: split; [first [exists SNone; by eexists | eexists; by eexists]|].
  all: intros H; try discriminate H; by repeat eexists.
Qed.

Lemma selected_model_trained_witness :
  let choice := SStr "huggingface-tc-distilbert-base-cased" in
  let f := run_all (demo_choosing choice) cells fresh 0%nat in
  out_res f = inr tt /\
  exists hyperparameters,
    omap estimator_args (calls (out_log f)) = [(choice, hyperparameters)].
Proof.
  assert (H : out_res (run_all (demo_choosing
                (SStr "huggingface-tc-distilbert-base-cased")) cells fresh
                0%nat) = inr tt) by reflexivity.
  split; [exact H|].
  destruct (proj2 (proj2 (selected_model_trained nat
              (demo_choosing (SStr "huggingface-tc-distilbert-base-cased"))
              0%nat)) H) as (model & Hm & hp & Hhp).
  exists hp. rewrite Hhp. f_equal. f_equal.
  cbn in Hm. by injection Hm as <-.
Defined.

(** The training input: in every execution [fit] is called with
    [logs=True] and the one channel ["training"], whose value is
    ["s3://"], the bucket that [get_jumpstart_content_bucket] returned,
    and ["/training-datasets/SST/"]; it is called on the estimator that
    the [JumpStartEstimator] construction returned. *)
Theorem training_input W (h : handler call result W) (w : W) :
  let l := out_log (run_all h cells fresh w) in
  Forall (fun '(est, inputs, logs) =>
            logs = true
            /\ (exists bucket,
                  returned l GetJumpstartContentBucket bucket /\
                  bound training_dataset_s3_path l
                  = ["s3://" +:+ bucket +:+ "/training-datasets/SST/"] /\
                  inputs
                  = [("training",
                      "s3://" +:+ bucket +:+ "/training-datasets/SST/")])
            /\ exists model hyperparameters,
                 returned l (JumpStartEstimator model hyperparameters) est)
         (omap fit_args (calls l)).
Proof.
  exec_once h; each_flow.
Qed.

Lemma training_input_witness :
  let l := out_log (run_all demo cells fresh 0%nat) in
  omap fit_args (calls l)
  = [(Obj 6%nat,
      [("training",
        "s3://jumpstart-cache-prod-us-west-2/training-datasets/SST/")],
      true)] /\
  exists model hyperparameters,
    returned l (JumpStartEstimator model hyperparameters) (Obj 6%nat).
Proof.
  split; [reflexivity|].
  pose proof (training_input nat demo 0%nat) as H.
  apply Forall_cons_1 in H as [(_ & _ & H) _]. exact H.
Defined.

(** Deployment follows training: in every execution [deploy] is called
    only on the estimator whose [fit] has returned; when [fit] raises,
    nothing is deployed. *)
Theorem deploy_after_fit W (h : handler call result W) (w : W) :
  let l := out_log (run_all h cells fresh w) in
  Forall (fun est =>
            (exists inputs, returned l (Fit est inputs true) tt) /\
            exists model hyperparameters,
              returned l (JumpStartEstimator model hyperparameters) est)
         (omap deploy_args (calls l))
  /\ (omap deploy_args (calls l) = [] \/
      omap deploy_args (calls l) = fst <$> (fst <$> omap fit_args (calls l))).
Proof.
  exec_once h; (split; [each_flow|]);
    first [by left | by right].
Qed.

(** The inference loop: every response that [predict] returns is bound to
    [query_response] and printed before anything else happens; the loop
    variable takes the two sentences in order; after a complete execution
    [text] holds the second sentence and [query_response] the last
    response. *)
Theorem responses_printed W (h : handler call result W) (w : W) :
  let f := run_all h cells fresh w in
  let l := out_log f in
  (forall l1 e l2,
     l = l1 ++ e :: l2 ->
     forall response,
       predicted e = Some response ->
       exists r l3,
         l2 = LStore query_response response :: LCall (Print response) r :: l3)
  /\ bound text l `prefix_of` [sentence1; sentence2]
  /\ (out_res f = inr tt ->
      out_ns f text = Some sentence2 /\
      exists response,
        out_ns f query_response = Some response /\
        list.last (omap predicted l) = Some response).
Proof.
  exec_once h.
  all: split;
    [apply (each_suffix_split
              (fun e l2 =>
                 forall response,
                   predicted e = Some response ->
                   exists r l3,
                     l2 = LStore query_response response
                          :: LCall (Print response) r :: l3));
     cbn; repeat split; intros response Hp; cbn in Hp; try discriminate Hp;
     injection Hp as <-; by eexists _, _|].
  all: split; [by eexists|].
  all: intros H; try discriminate H.
  all: split; [reflexivity|by eexists].
Qed.

(** The endpoint is deleted exactly when the execution of the notebook
    completes: [delete_predictor] returns only in an execution without an
    exception.  In particular, when a prediction raises, the endpoint
    that [deploy] created stays: no [delete_predictor] call is issued. *)
Theorem endpoint_deleted_iff_complete W (h : handler call result W) (w : W) :
  let f := run_all h cells fresh w in
  let l := out_log f in
  (out_res f = inr tt <-> existsb deleted l = true)
  /\ (existsb failed_predict l = true ->
      (exists p, omap deployed l = [p]) /\ existsb deletes l = false).
Proof.
  exec_once h.
  all: split; [split; intros H; first [done | discriminate H]|].
  all: intros H; try discriminate H.
  all: split; [by eexists | reflexivity].
Qed.

Lemma endpoint_deleted_iff_complete_witness :
  let l := out_log (run_all demo_refusing_second cells fresh 0%nat) in
  existsb failed_predict l = true /\
  omap deployed l = [Obj 7] /\
  existsb deletes l = false.
Proof.
  assert (H : existsb failed_predict
                (out_log (run_all demo_refusing_second cells fresh 0%nat))
              = true) by reflexivity.
  split; [exact H|]. split; [reflexivity|].
  exact (proj2 (proj2 (endpoint_deleted_iff_complete
                         nat demo_refusing_second 0%nat) H)).
Defined.



(** Executes a cell from two namespaces that agree but on [aws_role] and
    [sess]. *)
Ltac exec_both h s s' Hag :=
  repeat first
    [ progress cbn
    | match goal with
      | |- context [s' ?x] => rewrite <- (Hag x) by discriminate
      | H : s ?x = _ |- context [s ?x] => rewrite H
      | |- context [h ?c ?w] =>
          let E := fresh "E" in
          destruct (h c w) as [[?|?] ?] eqn:E
      | |- context [s ?x] =>
          let E := fresh "E" in
          destruct (s x) eqn:E
      | |- context [tc_filter ?ml] =>
          let E := fresh "E" in
          destruct (tc_filter ml) eqn:E
      end ].

Lemma cells_ignore_setup_bindings :
  Forall (fun c : cell =>
            forall W (h : handler call result W) (s s' : ns name ty) w,
              agree_but_setup s s' ->
              out_res (run h c s w) = out_res (run h c s' w) /\
              out_log (run h c s w) = out_log (run h c s' w) /\
              out_world (run h c s w) = out_world (run h c s' w) /\
              agree_but_setup (out_ns (run h c s w)) (out_ns (run h c s' w)))
         cells.
Proof.
  repeat (apply Forall_cons;
          [intros W h s s' w Hag; exec_both h s s' Hag;
           repeat (split; [reflexivity|]);
           unfold agree_but_setup;
           intros x Hx1 Hx2; destruct x; cbn;
           first [ reflexivity | congruence
                 | match goal with
                   | |- s ?y = s' ?y => exact (Hag y Hx1 Hx2)
                   end ]|]).
  apply Forall_nil.
Qed.

(** The role and the session that the setup cell binds are used by no
    cell: in whatever order and however often cells of the notebook are
    run, the values of [aws_role] and [sess] influence no call, no answer
    and no outcome. *)
Theorem setup_bindings_unused (cs : list cell)
    W (h : handler call result W) (s s' : ns name ty) (w : W) :
  Forall (fun c => c ∈ cells) cs ->
  agree_but_setup s s' ->
  out_res (run_all h cs s w) = out_res (run_all h cs s' w) /\
  out_log (run_all h cs s w) = out_log (run_all h cs s' w) /\
  out_world (run_all h cs s w) = out_world (run_all h cs s' w).
Proof.
  intros Hcs. revert s s' w.
  induction Hcs as [|c cs Hc _ IH]; intros s s' w Hag; [done|].
  destruct (proj1 (list.Forall_forall _ _) cells_ignore_setup_bindings c Hc
              W h s s' w Hag) as (Hr & Hl & Hw & Hn).
  simpl.
  destruct (run h c s w) as [r1 s1 w1 l1], (run h c s' w) as [r2 s2 w2 l2].
  simpl in *. subst r2 l2 w2. destruct r1 as [e|[]]; [done|].
  destruct (IH s1 s2 w1 Hn) as (Hr' & Hl' & Hw').
  destruct (run_all h cs s1 w1), (run_all h cs s2 w1). simpl in *.
  by subst.
Qed.

Lemma setup_bindings_unused_witness :
  let s' := bind_name aws_role "arn:aws:iam::999999999999:role/other"
              (bind_name sess (Obj 42%nat) before_selection) in
  let cs := [cell_select_model; cell_read_selection; cell_training_data;
             cell_estimator; cell_fit] in
  Forall (fun c => c ∈ cells) cs /\
  agree_but_setup before_selection s' /\
  out_log (run_all demo cs before_selection 3%nat)
  = out_log (run_all demo cs s' 3%nat).
Proof.
  assert (H1 : Forall (fun c => c ∈ cells)
                 [cell_select_model; cell_read_selection; cell_training_data;
                  cell_estimator; cell_fit]).
  { repeat (apply Forall_cons; [repeat constructor|]). apply Forall_nil. }
  assert (H2 : agree_but_setup before_selection
                 (bind_name aws_role "arn:aws:iam::999999999999:role/other"
                    (bind_name sess (Obj 42%nat) before_selection))).
  { intros x Hx1 Hx2. by destruct x. }
  split; [exact H1|]. split; [exact H2|].
  exact (proj1 (proj2 (setup_bindings_unused _ nat demo _ _ 3%nat H1 H2))).
Defined.

(** Executes the notebook from a namespace [s] and from a fresh kernel at
    once. *)
Ltac exec_pair h s :=
  match goal with
  | |- context [run_all h ?cs fresh ?w] =>
      let f := fresh "f" in
      let Hf := fresh "Hf" in
      remember (run_all h cs fresh w) as f eqn:Hf;
      match goal with
      | |- context [run_all h cs s w] =>
          let g := fresh "g" in
          let Hg := fresh "Hg" in
          remember (run_all h cs s w) as g eqn:Hg;
          revert Hf Hg; exec h; intros -> ->; cbn
      end
  end.


End JumpStartFlow.

(** ** The flow of values through the profiling notebook *)

Module ProfilingFlow.
Import Profiling ProfilingFacts.

(** Executes a whole notebook once, whatever the number of places at
    which the statement mentions the execution. *)
Ltac exec_once h :=
  match goal with
  | |- context [run_all h ?cs ?s ?w] =>
      let f := fresh "f" in
      let Hf := fresh "Hf" in
      remember (run_all h cs s w) as f eqn:Hf;
      revert Hf; exec h; intros ->; cbn
  end.

(** Answers of type [unit] are [()]. *)
Ltac units :=
  repeat match goal with
         | u : result ?c |- _ =>
             let T := eval cbn in (result c) in
             match T with unit => destruct u end
         end.

Ltac find_entry :=
  repeat first [apply list_elem_of_here | apply list_elem_of_further].

(** Finds in a log the calls whose answers flow into a later call. *)
Ltac flow :=
  unfold returned; units; cbn;
  repeat first [ reflexivity | split | eexists | find_entry ].

(** The same for each element of a list of observations. *)
Ltac each_flow :=
  repeat first [ apply Forall_nil | apply Forall_cons; [flow|] ].


Lemma cells_keep_reader_unbound :
  Forall (fun c : cell =>
            forall W (h : handler call result W) (s : ns name ty) w,
              s system_metrics_reader = None ->
              out_ns (run h c s w) system_metrics_reader = None)
         cells.
Proof.
  repeat (apply Forall_cons; [intros W h s w Hs; exec_from h s; done|]).
  apply Forall_nil.
Qed.



(** The rule list: from whatever namespace the cell runs, [rules] is
    bound only when all six calls have returned, and then to the three
    rule objects in the order written, each built from the configuration
    that the matching [rule_configs] call returned. *)
Theorem rules_built_in_order W (h : handler call result W) s w :
  let l := out_log (run h cell_rules s w) in
  Forall (fun rs =>
            exists c1 c2 c3 r1 r2 r3,
              rs = [r1; r2; r3] /\
              returned l LossNotDecreasing c1 /\
              returned l (RuleSagemaker c1) r1 /\
              returned l LowGPUUtilization c2 /\
              returned l (ProfilerRuleSagemaker c2) r2 /\
              returned l ProfilerReport c3 /\
              returned l (ProfilerRuleSagemaker c3) r3)
         (bound rules l)
  /\ (failures l <> [] -> bound rules l = [])
  /\ (failures l = [] -> length (bound rules l) = 1%nat).
Proof.
  exec_from h s; (split; [each_flow|]);
    (split; [by intros|]); by intros.
Qed.

(** The job that is analysed is the job that was submitted: in every
    execution of the notebook the estimator is built with the role that
    [get_execution_role] returned; [fit] addresses the estimator that the
    [TensorFlow] construction returned; the job name is read from that
    estimator after [fit] has returned; [TrainingJob] is constructed from
    the job name and the region that were read, which are the two values
    printed; and the object polled for profiling data is the
    [TrainingJob]. *)
Theorem analysed_job_is_submitted_job W (h : handler call result W) (w : W) :
  let l := out_log (run_all h cells fresh w) in
  Forall (fun args => returned l GetExecutionRole (tf_role args))
         (omap tf_call (calls l))
  /\ Forall (fun est => exists args, returned l (TensorFlow args) est)
            (omap fit_target (calls l))
  /\ Forall (fun est =>
               returned l (Fit est false) tt /\
               omap fit_target (calls l) = [est])
            (omap latest_job_target (calls l))
  /\ Forall (fun '(job_name, region_name) =>
               (exists est job,
                  returned l (LatestTrainingJob est) job /\
                  returned l (Name job) job_name) /\
               (exists session,
                  returned l Boto3Session session /\
                  returned l (RegionName session) region_name) /\
               omap printed (calls l)
               = ["Training jobname: " +:+ job_name;
                  "Region: " +:+ region_name])
            (omap training_job_args (calls l))
  /\ Forall (fun job =>
               exists job_name region_name,
                 returned l (TrainingJob job_name region_name) job)
            (omap wait_target (calls l)).
Proof.
  exec_once h.
  all: repeat (split; [each_flow|]).
  all: each_flow.
Qed.

Lemma analysed_job_is_submitted_job_witness :
  let l := out_log (run_all demo cells fresh 0%nat) in
  omap training_job_args (calls l)
  = [("tensorflow-training-2021-01-01-00-00-00-000", "us-west-2")] /\
  omap printed (calls l)
  = ["Training jobname: tensorflow-training-2021-01-01-00-00-00-000";
     "Region: us-west-2"] /\
  omap wait_target (calls l) = [Obj 11%nat] /\
  exists job_name region_name,
    returned l (TrainingJob job_name region_name) (Obj 11%nat).
Proof.
  split; [reflexivity|].
  pose proof (analysed_job_is_submitted_job nat demo 0%nat)
    as (_ & _ & _ & H1 & H2).
  apply Forall_cons_1 in H1 as [(_ & _ & H1) _].
  apply Forall_cons_1 in H2 as [H2 _].
  split; [exact H1|]. split; [reflexivity|exact H2].
Defined.

(** The rule-output cell, whatever the calls answer: without an
    estimator in the namespace it raises [NameError] before any call;
    [rule_output_path] is bound at most once, only after the three reads
    have returned, to the concatenation of the output path, the job name
    and ["/rule-output"]; the job is that of the estimator whose output
    path was read; and the one line printed names the path bound. *)
Theorem rule_output_cell_behaviour W (h : handler call result W)
    (s : ns name ty) (w : W) :
  let f := run h cell_rule_output s w in
  let l := out_log f in
  (s estimator = None ->
   out_res f = inl (NameError "estimator") /\ l = [])
  /\ Forall (fun path =>
               exists out jn,
                 omap output_path_answer l = [out] /\
                 omap job_name_answer l = [jn] /\
                 path = (out +:+ jn) +:+ "/rule-output" /\
                 bound rule_output_path l = [path])
            (bound rule_output_path l)
  /\ Forall (fun est =>
               s estimator = Some est /\
               exists out, returned l (OutputPath est) out)
            (omap latest_job_target (calls l))
  /\ Forall (fun line =>
               exists path,
                 bound rule_output_path l = [path] /\
                 line = "You will find the profiler report in " +:+ path)
            (omap printed (calls l)).
Proof.
  exec_from h s.
  all: split; [intros H; try discriminate H; by split|].
  all: repeat (split; [each_flow|]).
  all: each_flow.
Qed.


(** Executes the notebook from two namespaces at once. *)
Ltac exec_pair h s :=
  match goal with
  | |- context [run_all h ?cs fresh ?w] =>
      let f := fresh "f" in
      let Hf := fresh "Hf" in
      remember (run_all h cs fresh w) as f eqn:Hf;
      match goal with
      | |- context [run_all h cs s w] =>
          let g := fresh "g" in
          let Hg := fresh "Hg" in
          remember (run_all h cs s w) as g eqn:Hg;
          revert Hf Hg; exec_from h s; intros -> ->; cbn
      end
  end.



(** Executes the notebook once from the namespace [s]. *)
Ltac exec_once_from h s :=
  match goal with
  | |- context [run_all h ?cs s ?w] =>
      let f := fresh "f" in
      let Hf := fresh "Hf" in
      remember (run_all h cs s w) as f eqn:Hf;
      revert Hf; exec_from h s; intros ->; cbn
  end.




End ProfilingFlow.
